(** * The interactive table of [adalat-assignment]

    A shallow embedding of the React component [AdvancedTable]
    (src/interactive-table/src/components/AdvancedTable.tsx and its earlier
    variants) and of the data loader [App], together with the part of
    @tanstack/react-table v8 that the component configures:
    [getCoreRowModel], [getFilteredRowModel], [getSortedRowModel],
    [getPaginationRowModel], [getRowModel], [getPageCount] and the
    pagination updaters.

    Conventions.
    - JavaScript numbers that the component handles are integers (row counts,
      page indices, pixel coordinates, ages); they are modelled as [Z].
    - A cell value is a string, a number or [undefined].
    - Texts (cell texts, labels, search texts) are ASCII: a string is a
      sequence of one-byte characters, and the string functions below are
      those of JavaScript on such texts only.
    - The library memoises its row models. [Table.getFilteredRowModel] and
      [Table.getSortedRowModel] below are one computation of a row model,
      with the columns the table has when it is computed; module [Instance]
      keeps the computed models from one render to the next.
    - React state is explicit: every handler is a function from the previous
      state to the next one, exactly the updater passed to the state setter. *)

From Stdlib Require Import ZArith QArith Qround String Ascii List Lia.
From stdpp Require Import base gmap sets list sorting strings pretty.

Local Open Scope string_scope.
Local Open Scope Z_scope.

(** ** JavaScript values and strings *)

Module JS.

Inductive value : Type :=
  | VUndefined
  | VString (s : string)
  | VNumber (n : Z).

#[global] Instance value_eq_dec : EqDecision value.
Proof. solve_decision. Defined.

(** [String(v)], the conversion a template literal performs. *)
Definition toString (v : value) : string :=
  match v with
  | VUndefined => "undefined"
  | VString s => s
  | VNumber n => pretty n
  end.

(** [typeof v === 'string' || typeof v === 'number'] *)
Definition isStringOrNumber (v : value) : bool :=
  match v with
  | VString _ | VNumber _ => true
  | VUndefined => false
  end.

(** [String.prototype.toLowerCase] on ASCII text: the letters A to Z are
    lowered and every other character is kept. JavaScript also folds letters
    outside ASCII, which this function leaves unchanged; on a text with such
    letters it is not the JavaScript function. *)
Definition lowerAscii (c : ascii) : ascii :=
  let n := nat_of_ascii c in
  if (Nat.leb 65 n && Nat.leb n 90)%bool then ascii_of_nat (n + 32) else c.

Fixpoint toLowerCase (s : string) : string :=
  match s with
  | EmptyString => EmptyString
  | String c s' => String (lowerAscii c) (toLowerCase s')
  end.

(** [s.includes(search)] *)
Fixpoint includes (s search : string) : bool :=
  (String.prefix search s ||
   match s with
   | EmptyString => false
   | String _ s' => includes s' search
   end)%bool.

(** [arr.join(sep)] on an array of strings. *)
Fixpoint join (sep : string) (l : list string) : string :=
  match l with
  | [] => ""
  | [x] => x
  | x :: rest => x ++ sep ++ join sep rest
  end.

(** [arr.slice(start, end)] for integer arguments: a negative bound counts
    from the end, both bounds are clipped to the array. *)
Definition relativeIndex (len i : Z) : Z :=
  if i <? 0 then Z.max (len + i) 0 else Z.min i len.

Definition slice {A} (start stop : Z) (l : list A) : list A :=
  let len := Z.of_nat (length l) in
  let k := relativeIndex len start in
  let final := relativeIndex len stop in
  take (Z.to_nat (final - k)) (drop (Z.to_nat k) l).

(** [Math.ceil(a / b)] for [b ≠ 0]: the quotient is taken in the rationals. *)
Definition ceilDiv (a b : Z) : Z :=
  Qceiling (inject_Z a / inject_Z b)%Q.

(** [Number.MAX_SAFE_INTEGER] *)
Definition MAX_SAFE_INTEGER : Z := 2 ^ 53 - 1.

(** Insertion of [x] in front of the first element that does not precede it. *)
Fixpoint insertBy {A} (compareFn : A → A → Z) (x : A) (l : list A) : list A :=
  match l with
  | [] => [x]
  | y :: l' =>
      if compareFn x y <=? 0 then x :: y :: l'
      else y :: insertBy compareFn x l'
  end.

(** [arr.sort(compareFn)]. ECMAScript requires the sort to be stable and, for
    a consistent comparator, to return the unique stable ordering; the
    insertion sort below computes it. *)
Definition sort {A} (compareFn : A → A → Z) (l : list A) : list A :=
  foldr (insertBy compareFn) [] l.

End JS.

Import JS.

(** ** Rows and columns *)

(** [interface RowData { name; age; country; city }]. TypeScript declares the
    fields as string and number; the loader fills them from untyped JSON, so
    at run time each field holds an arbitrary cell value. *)
Record RowData : Type := mkRowData {
  name : value;
  age : value;
  country : value;
  city : value;
}.

(** Property access [row[key]]. *)
Definition getProperty (d : RowData) (key : string) : value :=
  if String.eqb key "name" then name d
  else if String.eqb key "age" then age d
  else if String.eqb key "country" then country d
  else if String.eqb key "city" then city d
  else VUndefined.

(** ** The table library (@tanstack/react-table) as the component uses it *)

Module Table.

(** [ColumnDef<RowData>] as [App] writes them:
    [{ accessorKey: 'name', header: 'Name' }]. The column id is its
    [accessorKey]. *)
Record ColumnDef : Type := mkColumnDef {
  accessorKey : string;
  header : string;
}.

(** A row of a row model: its position in [data] and the record itself. *)
Record Row : Type := mkRow {
  index : Z;
  original : RowData;
}.

Definition getValue (r : Row) (columnId : string) : value :=
  getProperty (original r) columnId.

(** [getCoreRowModel]: one row per element of [data], numbered in order. *)
Definition getCoreRowModel (data : list RowData) : list Row :=
  imap (λ i d, mkRow (Z.of_nat i) d) data.

(** *** Global filter *)

(** [filterFns.includesString], the automatic global filter function:
    [Boolean(row.getValue(columnId)?.toString()?.toLowerCase()?.includes(search))]
    with [search = filterValue.toLowerCase()]. *)
Definition includesString (r : Row) (columnId filterValue : string) : bool :=
  match getValue r columnId with
  | VUndefined => false
  | v => includes (toLowerCase (toString v)) (toLowerCase filterValue)
  end.

(** [column.getCanGlobalFilter()] with default options: the value of the
    column in the first core row is a string or a number. *)
Definition getCanGlobalFilter (core : list Row) (c : ColumnDef) : bool :=
  match core with
  | [] => false
  | r :: _ => isStringOrNumber (getValue r (accessorKey c))
  end.

(** [getFilteredRowModel] with no column filters: nothing is filtered when
    there are no rows or the global filter is falsy (the empty string);
    otherwise a row is kept when some globally filterable column matches.
    This is one computation of the memoised model: the library runs it when
    the core rows or the global filter change, not when the columns do, so
    [columns] are the columns of the table at that computation. *)
Definition getFilteredRowModel (columns : list ColumnDef) (globalFilter : string)
    (rows : list Row) : list Row :=
  if (Nat.eqb (length rows) 0 || String.eqb globalFilter "")%bool then rows
  else
    let globallyFilterableColumns := List.filter (getCanGlobalFilter rows) columns in
    match globallyFilterableColumns with
    | [] => rows
    | _ =>
        List.filter
          (λ r, existsb (λ c, includesString r (accessorKey c) globalFilter)
                  globallyFilterableColumns)
          rows
    end.

(** *** Sorting *)

(** An entry of the sorting state: [{ id, desc }]. *)
Record ColumnSort : Type := mkColumnSort {
  id : string;
  desc : bool;
}.

(** [compareBasic(a, b) = a === b ? 0 : a > b ? 1 : -1]. Numbers compare by
    value and strings by code unit; a comparison with [undefined] is false.
    A column holds values of one type, so the conversion JavaScript applies
    to a mixed string/number pair is left out: such a pair counts as not
    greater. *)
Definition strictEquals (a b : value) : bool := bool_decide (a = b).

Definition greaterThan (a b : value) : bool :=
  match a, b with
  | VNumber x, VNumber y => y <? x
  | VString s, VString t =>
      match String.compare s t with Gt => true | _ => false end
  | _, _ => false
  end.

Definition compareBasic (a b : value) : Z :=
  if strictEquals a b then 0 else if greaterThan a b then 1 else -1.

(** [sortingFns.basic] *)
Definition basic (columnId : string) (rowA rowB : Row) : Z :=
  compareBasic (getValue rowA columnId) (getValue rowB columnId).

Section RowModels.

(** The sorting function the library resolves for a column
    ([sortingFn: 'auto']): [basic] for numbers, a text comparison for
    strings. It is called as [sortingFn(rowA, rowB, columnId)]. *)
Variable sortingFn : string → Row → Row → Z.

(** The comparator [getSortedRowModel] hands to [Array.prototype.sort].
    For each sort entry in turn: with the default [sortUndefined: 1] an
    undefined value sorts after a defined one; otherwise the column's sorting
    function decides; a non-zero result is negated for [desc] and returned.
    When every entry ties the rows compare by [rowA.index - rowB.index]. *)
Fixpoint compareRows (availableSorting : list ColumnSort) (rowA rowB : Row) : Z :=
  match availableSorting with
  | [] => index rowA - index rowB
  | sortEntry :: rest =>
      let aUndefined := strictEquals (getValue rowA (id sortEntry)) VUndefined in
      let bUndefined := strictEquals (getValue rowB (id sortEntry)) VUndefined in
      let sortInt :=
        if (aUndefined || bUndefined)%bool then
          if (aUndefined && bUndefined)%bool then 0
          else if aUndefined then 1 else -1
        else 0 in
      let sortInt :=
        if sortInt =? 0 then sortingFn (id sortEntry) rowA rowB else sortInt in
      if sortInt =? 0 then compareRows rest rowA rowB
      else if desc sortEntry then - sortInt else sortInt
  end.

(** [column.getCanSort()] with default options holds for every accessor
    column of the table; a sort entry whose column is not in the table is
    dropped. *)
Definition getCanSort (columns : list ColumnDef) (s : ColumnSort) : bool :=
  existsb (λ c, String.eqb (accessorKey c) (id s)) columns.

(** [getSortedRowModel]: one computation of the memoised model. The library
    runs it when the sorting state or the filtered rows change, not when the
    columns do, so [columns] are the columns of the table at that
    computation. *)
Definition getSortedRowModel (columns : list ColumnDef) (sorting : list ColumnSort)
    (rows : list Row) : list Row :=
  match rows, sorting with
  | [], _ | _, [] => rows
  | _, _ =>
      let availableSorting := List.filter (getCanSort columns) sorting in
      JS.sort (compareRows availableSorting) rows
  end.

(** *** Pagination *)

Record PaginationState : Type := mkPaginationState {
  pageIndex : Z;
  pageSize : Z;
}.

(** [getPaginationRowModel]:
    [rows.slice(pageSize * pageIndex, pageSize * pageIndex + pageSize)]. *)
Definition getPaginationRowModel (pagination : PaginationState)
    (rows : list Row) : list Row :=
  match rows with
  | [] => rows
  | _ =>
      let pageStart := pageSize pagination * pageIndex pagination in
      let pageEnd := pageStart + pageSize pagination in
      slice pageStart pageEnd rows
  end.

(** [table.getPageCount()]:
    [Math.ceil(table.getPrePaginationRowModel().rows.length / pageSize)]. *)
Definition getPageCount (pagination : PaginationState) (prePagination : list Row) : Z :=
  ceilDiv (Z.of_nat (length prePagination)) (pageSize pagination).

Definition getCanPreviousPage (pagination : PaginationState) : bool :=
  0 <? pageIndex pagination.

Definition getCanNextPage (pagination : PaginationState) (prePagination : list Row) : bool :=
  let pageCount := getPageCount pagination prePagination in
  if pageCount =? -1 then true
  else if pageCount =? 0 then false
  else pageIndex pagination <? pageCount - 1.

(** [table.setPageIndex(i)]: no [pageCount] option is given, so the index is
    clipped to [0 .. Number.MAX_SAFE_INTEGER] only. *)
Definition setPageIndex (i : Z) (old : PaginationState) : PaginationState :=
  let maxPageIndex := MAX_SAFE_INTEGER in
  mkPaginationState (Z.max 0 (Z.min i maxPageIndex)) (pageSize old).

Definition nextPage (old : PaginationState) : PaginationState :=
  setPageIndex (pageIndex old + 1) old.

Definition previousPage (old : PaginationState) : PaginationState :=
  setPageIndex (pageIndex old - 1) old.

(** *** The pipeline: core, filtered, sorted, paginated *)

Record TableState : Type := mkTableState {
  globalFilter : string;
  sorting : list ColumnSort;
  pagination : PaginationState;
}.

Definition getPrePaginationRowModel (columns : list ColumnDef) (data : list RowData)
    (st : TableState) : list Row :=
  getSortedRowModel columns (sorting st)
    (getFilteredRowModel columns (globalFilter st) (getCoreRowModel data)).

(** [table.getRowModel()] is the last row model of the pipeline, the
    paginated one. *)
Definition getRowModel (columns : list ColumnDef) (data : list RowData)
    (st : TableState) : list Row :=
  getPaginationRowModel (pagination st) (getPrePaginationRowModel columns data st).

(** [row.getVisibleCells().map(cell => cell.getValue())]: one cell per column
    of the table. *)
Definition getVisibleCellValues (columns : list ColumnDef) (r : Row) : list value :=
  map (λ c, getValue r (accessorKey c)) columns.

End RowModels.

End Table.

Import Table.

(** ** The component [AdvancedTable] *)

Module AdvancedTable.

(** *** Column visibility *)

(** [toggleColumnVisibility(header)], the updater given to
    [setVisibleColumns]. The set is only ever read through [has], so it is
    modelled by its members. *)
Definition toggleColumnVisibility (header : string) (prev : gset string) : gset string :=
  if decide (header ∈ prev) then prev ∖ {[header]} else prev ∪ {[header]}.

(** [new Set(columns.map(col => col.header))] *)
Definition initialVisibleColumns (columns : list ColumnDef) : gset string :=
  list_to_set (map header columns).

(** [columns.filter(col => visibleColumns.has(col.header))], the columns the
    table is created with. *)
Definition tableColumns (columns : list ColumnDef) (visibleColumns : gset string)
    : list ColumnDef :=
  List.filter (λ col, bool_decide (header col ∈ visibleColumns)) columns.

(** *** Page size *)

(** [setPageSize(size)]: [setPagination(prev => ({ ...prev, pageSize: size }))] *)
Definition setPageSize (size : Z) (prev : PaginationState) : PaginationState :=
  mkPaginationState (pageIndex prev) size.

(** [useState<PaginationState>({ pageIndex: 0, pageSize: 10 })] *)
Definition initialPagination : PaginationState := mkPaginationState 0 10.

(** *** Column resizing *)

(** [columnWidths[columnId] || 200] *)
Definition widthOrDefault (columnWidths : gmap string Z) (columnId : string) : Z :=
  match columnWidths !! columnId with
  | Some w => if w =? 0 then 200 else w
  | None => 200
  end.

(** The closure [handleColumnResize] registers on [document]: the column and
    the two values captured at mouse-down. *)
Record Listener : Type := mkListener {
  columnId : string;
  startX : Z;
  startWidth : Z;
}.

Record ResizeState : Type := mkResizeState {
  columnWidths : gmap string Z;
  listeners : list Listener;
}.

Definition initialResizeState : ResizeState := mkResizeState ∅ [].

Inductive Event : Type :=
  | MouseDown (columnId : string) (clientX : Z)
  | MouseMove (clientX : Z)
  | MouseUp.

Section Resize.

(** The first argument of [Math.max] in [handleMouseMove]: 50 in
    AdvancedTable.tsx, 20 in the earlier variants of the component. *)
Variable minWidth : Z.

(** [handleMouseMove]:
    [newWidth = Math.max(minWidth, startWidth + moveEvent.clientX - startX)],
    stored with [setColumnWidths(prev => ({ ...prev, [columnId]: newWidth }))]. *)
Definition handleMouseMove (l : Listener) (clientX : Z) (prev : gmap string Z)
    : gmap string Z :=
  let newWidth := Z.max minWidth (startWidth l + clientX - startX l) in
  <[columnId l := newWidth]> prev.

(** [handleColumnResize(columnId, event)] *)
Definition handleColumnResize (columnId : string) (clientX : Z) (st : ResizeState)
    : ResizeState :=
  let startX := clientX in
  let startWidth := widthOrDefault (columnWidths st) columnId in
  mkResizeState (columnWidths st) (listeners st ++ [mkListener columnId startX startWidth]).

(** One DOM event: a mouse-down on a resize handle registers a listener, a
    mouse-move runs every registered [handleMouseMove], a mouse-up runs every
    [handleMouseUp], each of which removes its own pair of listeners. *)
Definition step (st : ResizeState) (e : Event) : ResizeState :=
  match e with
  | MouseDown columnId clientX => handleColumnResize columnId clientX st
  | MouseMove clientX =>
      mkResizeState
        (foldl (λ widths l, handleMouseMove l clientX widths) (columnWidths st)
           (listeners st))
        (listeners st)
  | MouseUp => mkResizeState (columnWidths st) []
  end.

Definition run (events : list Event) : ResizeState :=
  foldl step initialResizeState events.

End Resize.

(** *** The table instance and the export *)

Record State : Type := mkState {
  globalFilter : string;
  visibleColumns : gset string;
  pagination : PaginationState;
  sorting : list ColumnSort;
}.

Section Component.

Variable sortingFn : string → Row → Row → Z.

(** The props of the component. *)
Variable columns : list ColumnDef.
Variable data : list RowData.

Definition initialState : State :=
  mkState "" (initialVisibleColumns columns) initialPagination [].

Definition tableState (st : State) : TableState :=
  mkTableState (globalFilter st) (sorting st) (pagination st).

(** [table.getPrePaginationRowModel().rows] of the [useReactTable] instance,
    computed with the columns visible in [st]. These are the rows the table
    holds when its row models were computed with those columns; after a
    column was shown or hidden under a search text or a sort, the table still
    holds the models computed before (module [Instance]). *)
Definition prePaginationRows (st : State) : list Row :=
  Table.getPrePaginationRowModel sortingFn
    (tableColumns columns (visibleColumns st)) data (tableState st).

(** [table.getRowModel().rows] *)
Definition rowModelRows (st : State) : list Row :=
  Table.getRowModel sortingFn
    (tableColumns columns (visibleColumns st)) data (tableState st).

(** [table.getPageCount()] *)
Definition pageCount (st : State) : Z :=
  Table.getPageCount (pagination st) (prePaginationRows st).

(** The array [rows] of [exportToCsv]: the headers of all [columns], then
    for each row of [table.getRowModel()] the values of its visible cells. *)
Definition exportRows (st : State) : list (list value) :=
  map (λ col, VString (header col)) columns ::
  map (getVisibleCellValues (tableColumns columns (visibleColumns st)))
    (rowModelRows st).

Definition quote : string := String (ascii_of_nat 34) EmptyString.
Definition newline : string := String (ascii_of_nat 10) EmptyString.

(** [csvContent] of [exportToCsv] *)
Definition csvContent (st : State) : string :=
  join newline
    (map (λ row, join "," (map (λ v, quote ++ toString v ++ quote)%string row))
       (exportRows st)).

(** The data rows of the export: everything after the header row. *)
Definition exportDataRows (st : State) : list (list value) :=
  tail (exportRows st).

End Component.

End AdvancedTable.

(** ** The loader [App] *)

Module App.

(** The four columns [App] passes to the table. *)
Definition columns : list ColumnDef :=
  [ mkColumnDef "name" "Name"; mkColumnDef "age" "Age";
    mkColumnDef "city" "City"; mkColumnDef "country" "Country" ].

(** A user object of the fetched JSON. A field that is absent reads as
    [undefined]; [address] itself may be absent. *)
Record Address : Type := mkAddress {
  city : value;
  country : value;
}.

Record User : Type := mkUser {
  firstName : value;
  lastName : value;
  age : value;
  address : option Address;
}.

(** How an evaluation ends: with a value, or by throwing. The only exception
    the loader can throw is the [TypeError] of reading a property of
    [undefined]. *)
Inductive error : Type := TypeError.

Inductive completion (A : Type) : Type :=
  | Return (a : A)
  | Throw (e : error).
Arguments Return {A} a.
Arguments Throw {A} e.

(** The callback of [json.users.map]. *)
Definition formatUser (user : User) : completion RowData :=
  match address user with
  | None => Throw TypeError
  | Some a =>
      Return
        (mkRowData
           (VString (toString (firstName user) ++ " " ++ toString (lastName user)))
           (age user)
           (country a)
           (city a))
  end.

(** [json.users.map(...)]: the first exception aborts the whole map. *)
Fixpoint formattedData (users : list User) : completion (list RowData) :=
  match users with
  | [] => Return []
  | user :: rest =>
      match formatUser user with
      | Throw e => Throw e
      | Return row =>
          match formattedData rest with
          | Throw e => Throw e
          | Return rows => Return (row :: rows)
          end
      end
  end.

End App.

(** ** Row selection (the variants with check boxes) *)

Module Selection.

(** [row.id]: the table is created without [getRowId], so a row's id is its
    index in [data] written in decimal. *)
Definition rowId (r : Row) : string := pretty (index r).

(** [handleSelectAll(e)] with [e.target.checked]; [rows] is
    [table.getRowModel().rows]. *)
Definition handleSelectAll (checked : bool) (rows : list Row) : gset string :=
  if checked then list_to_set (rowId <$> rows) else ∅.

(** [handleRowSelect(rowId, checked)] *)
Definition handleRowSelect (rowId : string) (checked : bool)
    (selectedRows : gset string) : gset string :=
  if checked then selectedRows ∪ {[rowId]} else selectedRows ∖ {[rowId]}.

(** The check box of the header:
    [checked={selectedRows.size === table.getRowModel().rows.length}] *)
Definition selectAllChecked (selectedRows : gset string) (rows : list Row) : bool :=
  bool_decide (size selectedRows = length rows).

(** The check box of a row: [checked={selectedRows.has(row.id)}] *)
Definition rowChecked (selectedRows : gset string) (r : Row) : bool :=
  bool_decide (rowId r ∈ selectedRows).

End Selection.

(** ** Position of the View menu *)

Module Dropdown.

(** What the effect reads of [buttonRef.current.getBoundingClientRect()] and
    of [window]. *)
Record DOMRect : Type := mkDOMRect {
  rect_left : Z;
  rect_bottom : Z;
}.

Record Window : Type := mkWindow {
  innerWidth : Z;
  scrollX : Z;
  scrollY : Z;
}.

(** The state [dropdownPosition]: [{ top, left }]. *)
Record Position : Type := mkPosition {
  top : Z;
  left : Z;
}.

(** The effect on [dropdownVisible] of the first variant of
    AdvancedTable.tsx: [current] is [buttonRef.current], [prev] the position
    before the effect. *)
Definition positionEffect (current : option DOMRect) (dropdownVisible : bool)
    (window : Window) (prev : Position) : Position :=
  match current with
  | Some buttonRect =>
      if dropdownVisible then
        let screenWidth := innerWidth window in
        let newLeft := rect_left buttonRect + scrollX window in
        let dropdownWidth := 192 in
        let newLeft :=
          if screenWidth <? newLeft + dropdownWidth
          then screenWidth - dropdownWidth else newLeft in
        mkPosition (rect_bottom buttonRect + scrollY window) newLeft
      else prev
  | None => prev
  end.

(** The same effect in the dark-mode variant of AdvancedTable.tsx. *)
Definition positionEffectDark (current : option DOMRect) (dropdownVisible : bool)
    (window : Window) (prev : Position) : Position :=
  if dropdownVisible then
    match current with
    | Some rect =>
        let dropdownWidth := 200 in
        let screenWidth := innerWidth window in
        let leftPosition := rect_left rect + scrollX window in
        let leftPosition :=
          if screenWidth <? leftPosition + dropdownWidth
          then screenWidth - dropdownWidth - 20 else leftPosition in
        let leftPosition := if leftPosition <? 10 then 10 else leftPosition in
        mkPosition (rect_bottom rect + scrollY window) (leftPosition - 10)
    | None => prev
    end
  else prev.

End Dropdown.

(** ** The dark-mode preference *)

Module Theme.

(** The two pieces of the browser the theme code touches: [localStorage]
    (a missing key reads as [null]) and the class list of
    [document.documentElement]. *)
Record Browser : Type := mkBrowser {
  localStorage : gmap string string;
  classList : gset string;
}.

(** [localStorage.getItem("theme") === "dark"] *)
Definition storedThemeIsDark (b : Browser) : bool :=
  bool_decide (localStorage b !! "theme" = Some "dark").

(** [localStorage.setItem("theme", darkMode ? "dark" : "light")] *)
Definition setItemTheme (darkMode : bool) (b : Browser) : Browser :=
  mkBrowser (<["theme" := if darkMode then "dark" else "light"]> (localStorage b))
    (classList b).

(** First effect on [darkMode]: [classList.add("dark")] or
    [classList.remove("dark")], then [setItem]. *)
Definition addOrRemoveEffect (darkMode : bool) (b : Browser) : Browser :=
  let b' :=
    if darkMode then mkBrowser (localStorage b) (classList b ∪ {["dark"]})
    else mkBrowser (localStorage b) (classList b ∖ {["dark"]}) in
  setItemTheme darkMode b'.

(** Third effect on [darkMode]: [classList.toggle("dark", darkMode)], then
    [setItem]. *)
Definition toggleEffect (darkMode : bool) (b : Browser) : Browser :=
  let b' :=
    mkBrowser (localStorage b)
      (if darkMode then classList b ∪ {["dark"]} else classList b ∖ {["dark"]}) in
  setItemTheme darkMode b'.

(** The effects with dependency [darkMode], in the order they are declared. *)
Definition darkModeEffects (darkMode : bool) (b : Browser) : Browser :=
  toggleEffect darkMode (addOrRemoveEffect darkMode b).

(** Mounting the component: the initial state is read from storage; then the
    three effects run in order, the second one (declared between the two
    above, with no dependency) calling [setDarkMode(storedTheme === "dark")];
    when that changes the state the component renders again and the
    [darkMode] effects run once more. The result is the state [darkMode] and
    the browser. *)
Definition mount (b : Browser) : bool * Browser :=
  let darkMode := storedThemeIsDark b in
  let b1 := addOrRemoveEffect darkMode b in
  let darkMode' := storedThemeIsDark b1 in
  let b3 := toggleEffect darkMode b1 in
  if Bool.eqb darkMode darkMode' then (darkMode, b3)
  else (darkMode', darkModeEffects darkMode' b3).

(** A click on the mode button: [setDarkMode(!darkMode)], after which the
    [darkMode] effects run. *)
Definition clickModeButton (st : bool * Browser) : bool * Browser :=
  let darkMode := negb (fst st) in
  (darkMode, darkModeEffects darkMode (snd st)).

End Theme.

(** ** First and Last buttons (the variant with four pagination buttons) *)

Module Buttons.

(** [onClick={() => table.setPageIndex(0)}] *)
Definition firstPage (old : PaginationState) : PaginationState :=
  setPageIndex 0 old.

(** [onClick={() => table.setPageIndex(table.getPageCount() - 1)}];
    [rows] are the rows before pagination. *)
Definition lastPage (rows : list Row) (old : PaginationState) : PaginationState :=
  setPageIndex (getPageCount old rows - 1) old.

End Buttons.

(** ** The table instance from one render to the next *)

Module Instance.

Import AdvancedTable.

(** What the rows before pagination depend on, and the two row models as the
    table last computed them. The filtered row model is memoised on the core
    rows and the global filter, the sorted row model on the sorting state and
    the filtered row model; neither depends on the columns, so a render in
    which only the columns differ reuses both. Pagination slices the sorted
    model at every render and plays no part here. *)
Record TableInstance : Type := mkTableInstance {
  data : list RowData;
  globalFilter : string;
  visibleColumns : gset string;
  sorting : list ColumnSort;
  filteredRowModel : list Row;
  sortedRowModel : list Row;
}.

(** What makes the component render again: [setData] in [App], the search
    box ([setGlobalFilter(e.target.value)]), an entry of the View menu
    ([toggleColumnVisibility]), and a click on a header, whose handler stores
    a new sorting state. *)
Inductive Action : Type :=
  | SetData (data : list RowData)
  | SetGlobalFilter (text : string)
  | ToggleColumnVisibility (header : string)
  | SetSorting (sorting : list ColumnSort).

Section Renders.

Variable sortingFn : string → Row → Row → Z.

(** The prop [columns]; [App] passes the same array at every render. *)
Variable columns : list ColumnDef.

(** The first render, with the prop [data]. *)
Definition mount (data : list RowData) : TableInstance :=
  let visible := initialVisibleColumns columns in
  let current := tableColumns columns visible in
  let filtered := getFilteredRowModel current "" (getCoreRowModel data) in
  mkTableInstance data "" visible [] filtered
    (getSortedRowModel sortingFn current [] filtered).

(** The render after an action. New data or a new search text compute the
    filtered row model again, and with it the sorted one; a state setter
    called with the value the state already has renders nothing; a new
    sorting state computes the sorted row model again from the filtered rows
    the table holds; a change of the visible columns computes neither. Each
    computation uses the columns visible at that render. *)
Definition dispatch (t : TableInstance) (a : Action) : TableInstance :=
  let current := tableColumns columns (visibleColumns t) in
  match a with
  | SetData data' =>
      let filtered :=
        getFilteredRowModel current (globalFilter t) (getCoreRowModel data') in
      mkTableInstance data' (globalFilter t) (visibleColumns t) (sorting t)
        filtered (getSortedRowModel sortingFn current (sorting t) filtered)
  | SetGlobalFilter text =>
      if String.eqb text (globalFilter t) then t
      else
        let filtered :=
          getFilteredRowModel current text (getCoreRowModel (data t)) in
        mkTableInstance (data t) text (visibleColumns t) (sorting t)
          filtered (getSortedRowModel sortingFn current (sorting t) filtered)
  | ToggleColumnVisibility header =>
      mkTableInstance (data t) (globalFilter t)
        (toggleColumnVisibility header (visibleColumns t)) (sorting t)
        (filteredRowModel t) (sortedRowModel t)
  | SetSorting sorting' =>
      mkTableInstance (data t) (globalFilter t) (visibleColumns t) sorting'
        (filteredRowModel t)
        (getSortedRowModel sortingFn current sorting' (filteredRowModel t))
  end.

(** The instance after a sequence of actions, mounted with [data]. *)
Definition run (data : list RowData) (actions : list Action) : TableInstance :=
  foldl dispatch (mount data) actions.

End Renders.

End Instance.

(** ** Predicates used in the statements *)

(** The number of occurrences of a character in a string. *)
Fixpoint occurrences (c : ascii) (s : string) : nat :=
  match s with
  | EmptyString => 0
  | String c' s' => (if Ascii.eqb c c' then 1 else 0) + occurrences c s'
  end.


(** Rows in the order of [data]: strictly increasing [index]. *)
Definition inDataOrder (rows : list Row) : Prop :=
  StronglySorted (λ a b : Row, index a < index b) rows.

(** ** Concrete inputs used below *)

Module Examples.

Import AdvancedTable.

Definition person (n : string) (a : Z) : RowData :=
  mkRowData (VString n) (VNumber a) (VString "IN") (VString "Pune").

Definition bob : RowData := person "Bob" 30.
Definition al : RowData := person "Al" 25.
Definition cy : RowData := person "Cy" 25.

Definition threeRows : list RowData := [bob; al; cy].

(** Eleven and twelve records, aged 0, 1, 2, ... in this order. *)
Definition elevenRows : list RowData := map (person "P") (seqZ 0 11).
Definition twelveRows : list RowData := map (person "P") (seqZ 0 12).

(** The state of a freshly mounted component showing [App.columns]. *)
Definition mounted : State := initialState App.columns.

Definition withPagination (p : PaginationState) : State :=
  mkState "" (initialVisibleColumns App.columns) p [].

Definition withFilter (text : string) : State :=
  mkState text (initialVisibleColumns App.columns) initialPagination [].

Definition sortedByAge (descending : bool) : State :=
  mkState "" (initialVisibleColumns App.columns) initialPagination
    [mkColumnSort "age" descending].

(** The user clicked "Age" in the View menu. *)
Definition ageHidden : State :=
  mkState ""
    (toggleColumnVisibility "Age" (initialVisibleColumns App.columns))
    initialPagination [].

(** A fetched user without an [age] field. *)
Definition userWithoutAge : App.User :=
  App.mkUser (VString "Al") (VString "Smith") VUndefined
    (Some (App.mkAddress (VString "Pune") (VString "IN"))).

End Examples.

(** * Properties *)

(** ** Arithmetic and array lemmas *)

Section Helpers.

Lemma ceilDiv_opp_div (a b : Z) : 0 < b → ceilDiv a b = - ((- a) / b).
Proof.
  intros Hb. destruct b as [|p|p]; try lia.
  unfold ceilDiv, Qceiling, Qfloor, Qdiv, Qmult, Qinv, Qopp, inject_Z. simpl.
  rewrite Z.mul_1_r. reflexivity.
Qed.

(** [ceilDiv a b] is the least integer [k] with [a ≤ b * k]. *)
Lemma ceilDiv_spec (a b : Z) :
  0 < b → b * (ceilDiv a b - 1) < a ≤ b * ceilDiv a b.
Proof.
  intros Hb. rewrite ceilDiv_opp_div by done.
  pose proof (Z.mul_div_le (- a) b Hb).
  pose proof (Z.mul_succ_div_gt (- a) b Hb). lia.
Qed.

Lemma getPageCount_nonneg_bound (p : Z) (rows : list Row) :
  0 < p →
  0 ≤ getPageCount (mkPaginationState 0 p) rows
  ∧ Z.of_nat (length rows) ≤ p * getPageCount (mkPaginationState 0 p) rows.
Proof.
  intros Hp. unfold getPageCount. simpl.
  pose proof (ceilDiv_spec (Z.of_nat (length rows)) p Hp). split; nia.
Qed.

Lemma slice_page {A} (s p : Z) (l : list A) :
  0 ≤ s → 0 ≤ p →
  slice s (s + p) l = take (Z.to_nat p) (drop (Z.to_nat s) l).
Proof.
  intros Hs Hp. unfold slice, relativeIndex.
  destruct (Z.ltb_spec s 0); [lia|]. destruct (Z.ltb_spec (s + p) 0); [lia|].
  destruct (Z.le_gt_cases (Z.of_nat (length l)) s) as [Hge|Hlt].
  - rewrite (drop_ge l (Z.to_nat s)) by lia. rewrite drop_ge by lia.
    by rewrite !take_nil.
  - rewrite (Z.min_l s) by lia.
    destruct (Z.le_gt_cases (s + p) (Z.of_nat (length l))).
    + rewrite Z.min_l by lia. f_equal. lia.
    + rewrite Z.min_r by lia.
      rewrite !take_ge; [done| |]; rewrite length_drop; lia.
Qed.

Lemma getPaginationRowModel_page (pagination : PaginationState) (rows : list Row) :
  0 ≤ pageIndex pagination → 0 < pageSize pagination →
  getPaginationRowModel pagination rows =
    take (Z.to_nat (pageSize pagination))
      (drop (Z.to_nat (pageSize pagination * pageIndex pagination)) rows).
Proof.
  intros Hi Hs. unfold getPaginationRowModel.
  destruct rows as [|r rows]; [by rewrite drop_nil, take_nil|].
  apply slice_page; lia.
Qed.

End Helpers.

(** ** Export and pagination *)

Section ExportCsv.

Import AdvancedTable Examples.

Variable sortingFn : string → Row → Row → Z.
Variable columns : list ColumnDef.
Variable data : list RowData.

(** C1, as amended. For every row set, filter text, sort setting, page size
    [p > 0] and page index [i ≥ 0], [exportToCsv] emits one data row for every
    row of the current page of the filtered-and-sorted row set, namely rows
    [p * i] to [p * i + p - 1], which are the rows the table body shows; so
    the number of exported rows is [min p (max 0 (n - p * i))] where [n] is
    the size of the filtered-and-sorted set. *)
Theorem exportToCsv_exports_current_page (st : State) :
  0 ≤ pageIndex (pagination st) →
  0 < pageSize (pagination st) →
  exportDataRows sortingFn columns data st =
    map (getVisibleCellValues (tableColumns columns (visibleColumns st)))
      (take (Z.to_nat (pageSize (pagination st)))
         (drop (Z.to_nat (pageSize (pagination st) * pageIndex (pagination st)))
            (prePaginationRows sortingFn columns data st)))
  ∧ Z.of_nat (length (exportDataRows sortingFn columns data st)) =
      Z.min (pageSize (pagination st))
        (Z.max 0
           (Z.of_nat (length (prePaginationRows sortingFn columns data st))
            - pageSize (pagination st) * pageIndex (pagination st))).
Proof.
  intros Hi Hs.
  assert (Hrows : exportDataRows sortingFn columns data st =
    map (getVisibleCellValues (tableColumns columns (visibleColumns st)))
      (take (Z.to_nat (pageSize (pagination st)))
         (drop (Z.to_nat (pageSize (pagination st) * pageIndex (pagination st)))
            (prePaginationRows sortingFn columns data st)))).
  { unfold exportDataRows, exportRows, rowModelRows, getRowModel. simpl.
    f_equal. by apply getPaginationRowModel_page. }
  split; [exact Hrows|].
  rewrite Hrows, length_map, length_take, length_drop. lia.
Qed.

End ExportCsv.

Import AdvancedTable Examples.

(** Witness of C1 as amended: three records, second page of size two. *)
Lemma exportToCsv_exports_current_page_witness :
  exportDataRows basic App.columns threeRows
    (withPagination (mkPaginationState 1 2)) =
    [[VString "Cy"; VNumber 25; VString "Pune"; VString "IN"]].
Proof.
  pose proof (exportToCsv_exports_current_page basic App.columns threeRows
                (withPagination (mkPaginationState 1 2))) as H.
  destruct H as [H _]; [simpl; lia | simpl; lia |].
  rewrite H. reflexivity.
Defined.

(** C1 fails as stated: with eleven records and the initial page
    ([pageIndex = 0], [pageSize = 10]) the filtered-and-sorted set has eleven
    rows and the export has ten; on the next page it has one. *)
Lemma exportToCsv_depends_on_page :
  length (prePaginationRows basic App.columns elevenRows mounted) = 11%nat
  ∧ length (exportDataRows basic App.columns elevenRows mounted) = 10%nat
  ∧ length (exportDataRows basic App.columns elevenRows
              (withPagination (nextPage initialPagination))) = 1%nat.
Proof. vm_compute. done. Qed.

(** C2, as amended. For every row set [R] and page size [p > 0] the reported
    page count is [ceil(len(R) / p)], the least [k] with [len(R) ≤ p * k];
    it is at least 1 exactly when [R] is not empty. *)
Theorem getPageCount_ceil (pagination : PaginationState) (rows : list Row) :
  0 < pageSize pagination →
  (pageSize pagination * (getPageCount pagination rows - 1)
     < Z.of_nat (length rows)
     ≤ pageSize pagination * getPageCount pagination rows)
  ∧ (1 ≤ getPageCount pagination rows ↔ rows ≠ []).
Proof.
  intros Hp. unfold getPageCount.
  pose proof (ceilDiv_spec (Z.of_nat (length rows)) (pageSize pagination) Hp) as Hc.
  split; [exact Hc|].
  destruct rows as [|r rows]; simpl in *.
  - split; [|done]. intros H1. exfalso. nia.
  - split; [done|]. intros _. nia.
Qed.

Lemma getPageCount_ceil_witness :
  (2 * (getPageCount (mkPaginationState 0 2) (getCoreRowModel threeRows) - 1)
     < 3 ≤ 2 * getPageCount (mkPaginationState 0 2) (getCoreRowModel threeRows))
  ∧ (1 ≤ getPageCount (mkPaginationState 0 2) (getCoreRowModel threeRows)
     ↔ getCoreRowModel threeRows ≠ []).
Proof.
  apply (getPageCount_ceil (mkPaginationState 0 2) (getCoreRowModel threeRows)).
  simpl. lia.
Defined.

(** C2 fails as stated: the empty row set has [ceil(0 / 10) = 0] pages, which
    the component shows as "Page 1 of 0". *)
Lemma getPageCount_empty_is_zero :
  pageCount basic App.columns [] mounted = 0
  ∧ pageCount basic App.columns [] mounted < 1
  ∧ pageIndex (pagination mounted) + 1 = 1.
Proof. vm_compute. done. Qed.

(** C3, as amended. For every row set, a request for a page index at or
    beyond the page count (and within the safe integers) raises no error, is
    stored unchanged, and yields an empty page: nothing clamps the index to
    the last page. *)
Theorem getPaginationRowModel_beyond_last_page
    (rows : list Row) (old : PaginationState) (i : Z) :
  0 < pageSize old →
  getPageCount old rows ≤ i →
  i ≤ MAX_SAFE_INTEGER →
  pageIndex (setPageIndex i old) = i
  ∧ getPaginationRowModel (setPageIndex i old) rows = [].
Proof.
  intros Hp Hc Hmax.
  pose proof (ceilDiv_spec (Z.of_nat (length rows)) (pageSize old) Hp) as Hs.
  fold (getPageCount old rows) in Hs.
  assert (0 ≤ getPageCount old rows) by nia.
  assert (Hi : pageIndex (setPageIndex i old) = i).
  { unfold setPageIndex. simpl. lia. }
  split; [exact Hi|].
  rewrite getPaginationRowModel_page; [|lia|done].
  rewrite Hi. change (pageSize (setPageIndex i old)) with (pageSize old).
  rewrite drop_ge; [by rewrite take_nil|]. nia.
Qed.

Lemma getPaginationRowModel_beyond_last_page_witness :
  pageIndex (setPageIndex 5 (mkPaginationState 0 2)) = 5
  ∧ getPaginationRowModel (setPageIndex 5 (mkPaginationState 0 2))
      (getCoreRowModel threeRows) = [].
Proof.
  apply (getPaginationRowModel_beyond_last_page
           (getCoreRowModel threeRows) (mkPaginationState 0 2) 5);
    vm_compute; congruence.
Defined.

(** C3 fails as stated: twelve records, five per page, third page; choosing
    fifty per page leaves [pageIndex = 2] while there is a single page, and
    the row model is empty although the row set is not. *)
Lemma pageIndex_not_clamped :
  nextPage (nextPage (setPageSize 5 initialPagination)) = mkPaginationState 2 5
  ∧ setPageSize 50 (mkPaginationState 2 5) = mkPaginationState 2 50
  ∧ pageCount basic App.columns twelveRows
      (withPagination (mkPaginationState 2 50)) = 1
  ∧ rowModelRows basic App.columns twelveRows
      (withPagination (mkPaginationState 2 50)) = []
  ∧ length (prePaginationRows basic App.columns twelveRows
              (withPagination (mkPaginationState 2 50))) = 12%nat.
Proof. vm_compute. done. Qed.

(** C8, as amended. Changing the page size replaces [pageSize] only:
    [pageIndex] is kept as it is (neither re-derived from the first row of
    the previous page nor reset to 0), so the new page holds rows
    [size * pageIndex] to [size * pageIndex + size - 1]. *)
Theorem setPageSize_keeps_pageIndex
    (size : Z) (prev : PaginationState) (rows : list Row) :
  0 ≤ pageIndex prev →
  0 < size →
  pageIndex (setPageSize size prev) = pageIndex prev
  ∧ pageSize (setPageSize size prev) = size
  ∧ getPaginationRowModel (setPageSize size prev) rows =
      take (Z.to_nat size) (drop (Z.to_nat (size * pageIndex prev)) rows).
Proof.
  intros Hi Hs. split; [done|]. split; [done|].
  by rewrite getPaginationRowModel_page.
Qed.

Lemma setPageSize_keeps_pageIndex_witness :
  pageIndex (setPageSize 10 (mkPaginationState 2 5)) = 2
  ∧ pageSize (setPageSize 10 (mkPaginationState 2 5)) = 10
  ∧ getPaginationRowModel (setPageSize 10 (mkPaginationState 2 5))
      (getCoreRowModel twelveRows) =
      take (Z.to_nat 10) (drop (Z.to_nat (10 * 2)) (getCoreRowModel twelveRows)).
Proof.
  apply (setPageSize_keeps_pageIndex 10 (mkPaginationState 2 5)
           (getCoreRowModel twelveRows)); simpl; lia.
Defined.

(** C8 fails as stated: twelve records, five per page, third page: the first
    visible row is record 10. After choosing ten per page record 10 still
    exists and lies on page 1, yet [pageIndex] stays 2 and no row is
    visible. *)
Lemma setPageSize_loses_anchor_row :
  index <$> head (rowModelRows basic App.columns twelveRows
                    (withPagination (mkPaginationState 2 5))) = Some 10
  ∧ setPageSize 10 (mkPaginationState 2 5) = mkPaginationState 2 10
  ∧ rowModelRows basic App.columns twelveRows
      (withPagination (setPageSize 10 (mkPaginationState 2 5))) = []
  ∧ index <$> head (rowModelRows basic App.columns twelveRows
                      (withPagination (mkPaginationState 1 10))) = Some 10.
Proof. vm_compute. done. Qed.

(** ** Filtering *)

(** C5, as amended. For every row set [R], the filter stage with the empty
    filter text is the identity: it returns exactly [R], in the original
    order; applied to the core rows it gives back the records of [data]. *)
Theorem getFilteredRowModel_empty_text
    (columns : list ColumnDef) (rows : list Row) (data : list RowData) :
  getFilteredRowModel columns "" rows = rows
  ∧ original <$> getFilteredRowModel columns "" (getCoreRowModel data) = data.
Proof.
  assert (Hid : ∀ l, getFilteredRowModel columns "" l = l).
  { intros l. unfold getFilteredRowModel. simpl.
    by rewrite orb_true_r. }
  split; [apply Hid|]. rewrite Hid. unfold getCoreRowModel.
  rewrite fmap_imap.
  induction data as [|d l IH] using rev_ind; [done|].
  rewrite imap_app, IH. simpl. done.
Qed.

(** C5 fails as stated for a whitespace-only text: a single space is a
    search term like any other, and a record none of whose cells contains a
    space is filtered out. *)
Lemma getFilteredRowModel_whitespace_filters :
  getFilteredRowModel App.columns " " (getCoreRowModel [al]) = []
  ∧ rowModelRows basic App.columns [al] (withFilter " ") = []
  ∧ getCoreRowModel [al] ≠ [].
Proof. vm_compute. done. Qed.

(** ** Sorting *)

Section SortLemmas.

Context {A : Type} (compareFn : A → A → Z).



Lemma insertBy_Permutation (x : A) (l : list A) :
  insertBy compareFn x l ≡ₚ x :: l.
Proof.
  induction l as [|z l IH]; simpl; [done|].
  destruct (compareFn x z <=? 0); [done|].
  rewrite IH. apply perm_swap.
Qed.

(** The sort only rearranges its input. *)
Lemma sort_Permutation (l : list A) : JS.sort compareFn l ≡ₚ l.
Proof.
  induction l as [|x l IH]; simpl; [done|].
  by rewrite insertBy_Permutation, IH.
Qed.

(** A list already in comparator order is left as it is. *)
Lemma sort_sorted_id (l : list A) :
  StronglySorted (λ x y, compareFn x y ≤ 0) l → JS.sort compareFn l = l.
Proof.
  induction 1 as [|x l Hl IH Hx]; simpl; [done|].
  rewrite IH. destruct Hx as [|y l Hy _]; simpl; [done|].
  destruct (Z.leb_spec (compareFn x y) 0); [done|lia].
Qed.

Context (P : A → Prop) `{!∀ x, Decision (P x)}.




End SortLemmas.

Section RowOrder.

Lemma getCoreRowModel_inDataOrder (data : list RowData) :
  inDataOrder (getCoreRowModel data).
Proof.
  unfold getCoreRowModel, inDataOrder.
  assert (H : ∀ (k : nat) (l : list RowData),
    Forall (λ r, Z.of_nat k ≤ index r) (imap (λ i d, mkRow (Z.of_nat (k + i)) d) l)
    ∧ StronglySorted (λ a b : Row, index a < index b)
        (imap (λ i d, mkRow (Z.of_nat (k + i)) d) l)).
  { intros k l. revert k. induction l as [|d l IH]; intros k.
    - split; constructor.
    - rewrite imap_cons. destruct (IH (S k)) as [Hge Hs].
      assert (Heq : imap ((λ i d0, mkRow (Z.of_nat (k + i)) d0) ∘ S) l
                    = imap (λ i d0, mkRow (Z.of_nat (S k + i)) d0) l).
      { apply imap_ext. intros i x _. simpl. do 2 f_equal. lia. }
      rewrite Heq. split.
      + constructor; [simpl; lia|].
        eapply Forall_impl; [exact Hge|]. simpl. intros. lia.
      + constructor; [done|].
        eapply Forall_impl; [exact Hge|]. simpl. intros. lia. }
  apply (H 0%nat data).
Qed.

Lemma List_filter_StronglySorted {A} (R : A → A → Prop) (f : A → bool) (l : list A) :
  StronglySorted R l → StronglySorted R (List.filter f l).
Proof.
  induction 1 as [|x l Hl IH Hx]; simpl; [constructor|].
  destruct (f x); [|done]. constructor; [done|].
  rewrite Forall_forall in Hx |- *. intros y Hy.
  apply Hx. rewrite list_elem_of_In in Hy |- *.
  apply filter_In in Hy. tauto.
Qed.

Lemma getFilteredRowModel_inDataOrder
    (columns : list ColumnDef) (globalFilter : string) (rows : list Row) :
  inDataOrder rows → inDataOrder (getFilteredRowModel columns globalFilter rows).
Proof.
  unfold inDataOrder. intros H. unfold getFilteredRowModel.
  destruct (_ || _)%bool; [done|].
  destruct (List.filter _ columns); [done|].
  by apply List_filter_StronglySorted.
Qed.

End RowOrder.




Section Stability.

Variable sortingFn : string → Row → Row → Z.

(** A sorting function compares the two cell values of the column: on rows
    with the same value it answers 0. *)
Hypothesis sortingFn_equal_values : ∀ columnId a b,
  getValue a columnId = getValue b columnId → sortingFn columnId a b = 0.




End Stability.


(** The example of the specification: Bob (30), Al (25), Cy (25) sorted by
    age. Ascending gives Al, Cy, Bob; descending gives Bob, Al, Cy: in both
    Al stays before Cy. *)
Example sort_by_age_ascending :
  original <$> rowModelRows basic App.columns threeRows (sortedByAge false)
  = [al; cy; bob].
Proof. vm_compute. done. Qed.

Example sort_by_age_descending :
  original <$> rowModelRows basic App.columns threeRows (sortedByAge true)
  = [bob; al; cy].
Proof. vm_compute. done. Qed.

(** The filter example of the specification: the text "25" keeps Al and Cy. *)
Example filter_by_25 :
  original <$> rowModelRows basic App.columns threeRows (withFilter "25")
  = [al; cy].
Proof. vm_compute. done. Qed.

(** ** Column widths *)

Section ResizeInvariant.

Variable minWidth : Z.

Lemma handleMouseMove_floor (l : Listener) (clientX : Z) (prev : gmap string Z) :
  map_Forall (λ _ w, minWidth ≤ w) prev →
  map_Forall (λ _ w, minWidth ≤ w) (handleMouseMove minWidth l clientX prev).
Proof.
  intros Hprev. unfold handleMouseMove.
  apply map_Forall_insert_2; [lia|done].
Qed.

Lemma step_floor (st : ResizeState) (e : Event) :
  map_Forall (λ _ w, minWidth ≤ w) (columnWidths st) →
  map_Forall (λ _ w, minWidth ≤ w) (columnWidths (step minWidth st e)).
Proof.
  intros Hst. destruct e as [c x|x|]; simpl; [done| |done].
  generalize dependent (columnWidths st).
  induction (listeners st) as [|l ls IH]; intros widths Hw; simpl; [done|].
  apply IH. by apply handleMouseMove_floor.
Qed.

(** Whatever the sequence of mouse events, every stored width is at least
    the first argument of [Math.max]. *)
Lemma run_floor (events : list Event) :
  map_Forall (λ _ w, minWidth ≤ w) (columnWidths (run minWidth events)).
Proof.
  unfold run.
  assert (H : ∀ st, map_Forall (λ _ w, minWidth ≤ w) (columnWidths st) →
    map_Forall (λ _ w, minWidth ≤ w) (columnWidths (foldl (step minWidth) st events))).
  { induction events as [|e es IH]; intros st Hst; simpl; [done|].
    apply IH. by apply step_floor. }
  apply H. simpl. apply map_Forall_empty.
Qed.

End ResizeInvariant.

(** X1. In AdvancedTable.tsx, where the floor is 50, every width stored and every
    width applied to a header ([columnWidths[header.id] || 200]) is at least
    50, for every sequence of resize events. *)
Theorem resize_widths_at_least_50 (events : list Event) (columnId : string) :
  map_Forall (λ _ w, 50 ≤ w) (columnWidths (run 50 events))
  ∧ 50 ≤ widthOrDefault (columnWidths (run 50 events)) columnId.
Proof.
  pose proof (run_floor 50 events) as H. split; [exact H|].
  unfold widthOrDefault.
  destruct (columnWidths (run 50 events) !! columnId) as [w|] eqn:Hw; [|lia].
  apply H in Hw. simpl in Hw. destruct (w =? 0); lia.
Qed.

(** C6 at the failing input. In the variants of the component whose
    [handleMouseMove] reads [Math.max(20, ...)] under the comment "Minimum
    width of 50px", pressing the handle of column "name" at x = 300 (start
    width 200) and moving to x = 130 stores the width 30. *)
Theorem resize_floor_20_stores_30 :
  listeners (run 20 [MouseDown "name" 300]) = [mkListener "name" 300 200]
  ∧ columnWidths (run 20 [MouseDown "name" 300; MouseMove 130]) !! "name"
    = Some 30.
Proof. vm_compute. done. Qed.

(** ** Export header *)

(** C7 at the failing input. With the four columns of [App], column "Age"
    hidden and the single record Al, the header row of the export still
    lists all four labels while the data row holds the three visible
    values. *)
Theorem exportToCsv_header_keeps_hidden_column :
  exportRows basic App.columns [al] ageHidden =
    [ [VString "Name"; VString "Age"; VString "City"; VString "Country"];
      [VString "Al"; VString "Pune"; VString "IN"] ]
  ∧ header <$> tableColumns App.columns (visibleColumns ageHidden)
    = ["Name"; "City"; "Country"].
Proof. vm_compute. done. Qed.

(** ** Column visibility *)

Lemma tableColumns_elem_of (columns : list ColumnDef) (V : gset string) (c : ColumnDef) :
  c ∈ tableColumns columns V ↔ c ∈ columns ∧ header c ∈ V.
Proof.
  unfold tableColumns. rewrite !list_elem_of_In, filter_In.
  by rewrite bool_decide_eq_true.
Qed.


(** C10. Toggling the visibility of a header label twice gives back the set
    of visible labels; one application removes the label when present and
    adds it otherwise; and since the table keeps a column exactly when its
    label is in the set, toggling [h] flips every column labelled [h], and
    two columns with the same label are always shown or hidden together. *)
Theorem toggleColumnVisibility_involutive
    (S : gset string) (h : string) (columns : list ColumnDef) :
  toggleColumnVisibility h (toggleColumnVisibility h S) = S
  ∧ (h ∈ S → toggleColumnVisibility h S = S ∖ {[h]})
  ∧ (h ∉ S → toggleColumnVisibility h S = S ∪ {[h]})
  ∧ (∀ c, c ∈ columns → header c = h →
       (c ∈ tableColumns columns (toggleColumnVisibility h S)
        ↔ c ∉ tableColumns columns S))
  ∧ (∀ (V : gset string) c1 c2, c1 ∈ columns → c2 ∈ columns →
       header c1 = header c2 →
       (c1 ∈ tableColumns columns V ↔ c2 ∈ tableColumns columns V)).
Proof.
  assert (Hin : h ∈ S → toggleColumnVisibility h S = S ∖ {[h]}).
  { intros H. unfold toggleColumnVisibility. by rewrite decide_True. }
  assert (Hout : h ∉ S → toggleColumnVisibility h S = S ∪ {[h]}).
  { intros H. unfold toggleColumnVisibility. by rewrite decide_False. }
  split; [|split; [done|split; [done|split]]].
  - destruct (decide (h ∈ S)) as [H|H].
    + rewrite (Hin H). unfold toggleColumnVisibility.
      rewrite decide_False
        by (rewrite elem_of_difference, elem_of_singleton; tauto).
      apply set_eq. intros x.
      rewrite elem_of_union, elem_of_difference, elem_of_singleton.
      destruct (decide (x = h)); subst; tauto.
    + rewrite (Hout H). unfold toggleColumnVisibility.
      rewrite decide_True by (rewrite elem_of_union, elem_of_singleton; tauto).
      apply set_eq. intros x.
      rewrite elem_of_difference, elem_of_union, elem_of_singleton.
      destruct (decide (x = h)); subst; tauto.
  - intros c Hc Hh. rewrite !tableColumns_elem_of, Hh.
    destruct (decide (h ∈ S)) as [H|H].
    + rewrite (Hin H), elem_of_difference, elem_of_singleton. tauto.
    + rewrite (Hout H), elem_of_union, elem_of_singleton. tauto.
  - intros V c1 c2 H1 H2 Hh. rewrite !tableColumns_elem_of, Hh. tauto.
Qed.

(** Witness of C10: "Age" toggled in the initial set of [App.columns]. *)
Lemma toggleColumnVisibility_involutive_witness :
  toggleColumnVisibility "Age"
    (toggleColumnVisibility "Age" (initialVisibleColumns App.columns))
  = initialVisibleColumns App.columns
  ∧ toggleColumnVisibility "Age" (initialVisibleColumns App.columns)
    = initialVisibleColumns App.columns ∖ {["Age"]}
  ∧ (mkColumnDef "age" "Age" ∈
       tableColumns App.columns
         (toggleColumnVisibility "Age" (initialVisibleColumns App.columns))
     ↔ mkColumnDef "age" "Age" ∉
         tableColumns App.columns (initialVisibleColumns App.columns)).
Proof.
  destruct (toggleColumnVisibility_involutive
              (initialVisibleColumns App.columns) "Age" App.columns)
    as (Hinv & Hin & _ & Hflip & _).
  split; [exact Hinv|]. split.
  - apply Hin. vm_compute. done.
  - apply Hflip; [|reflexivity].
    apply list_elem_of_In. simpl. tauto.
Defined.

(** ** Caller input *)




(** ** Further properties of the pipeline *)

(** X2. Sorting never drops, repeats or invents a row. *)
Theorem getSortedRowModel_Permutation
    (sortingFn : string → Row → Row → Z) (columns : list ColumnDef)
    (sorting : list ColumnSort) (rows : list Row) :
  getSortedRowModel sortingFn columns sorting rows ≡ₚ rows.
Proof.
  unfold getSortedRowModel.
  destruct rows as [|r rows]; [done|]. destruct sorting as [|s sorting]; [done|].
  apply sort_Permutation.
Qed.

Lemma List_filter_sublist {A} (f : A → bool) (l : list A) :
  List.filter f l `sublist_of` l.
Proof.
  induction l as [|x l IH]; simpl; [done|].
  destruct (f x); [by apply sublist_skip|by apply sublist_cons].
Qed.

(** X3. Filtering only removes rows: what remains is in the order of the input,
    whatever the filter text. *)
Theorem getFilteredRowModel_sublist
    (columns : list ColumnDef) (globalFilter : string) (rows : list Row) :
  getFilteredRowModel columns globalFilter rows `sublist_of` rows.
Proof.
  unfold getFilteredRowModel.
  destruct (_ || _)%bool; [done|].
  destruct (List.filter _ columns); [done|].
  apply List_filter_sublist.
Qed.

Lemma pages_concat_take (p : Z) (rows : list Row) (k : nat) :
  0 < p →
  concat ((λ i, getPaginationRowModel (mkPaginationState i p) rows)
            <$> seqZ 0 (Z.of_nat k))
  = take (k * Z.to_nat p) rows.
Proof.
  intros Hp. induction k as [|k IH]; [done|].
  rewrite seqZ_S, fmap_app, concat_app, IH. simpl.
  rewrite app_nil_r, getPaginationRowModel_page by (simpl; lia). simpl.
  replace (Z.to_nat (p * (0 + Z.of_nat k))) with (k * Z.to_nat p)%nat by lia.
  rewrite take_take_drop. f_equal. lia.
Qed.

(** X4. The pages partition the rows: for a page size [p > 0], pages
    [0 .. pageCount - 1] put end to end are the row set, so their lengths add
    up to its length. *)
Theorem pages_partition_rows (p : Z) (rows : list Row) :
  0 < p →
  concat ((λ i, getPaginationRowModel (mkPaginationState i p) rows)
            <$> seqZ 0 (getPageCount (mkPaginationState 0 p) rows))
  = rows.
Proof.
  intros Hp.
  pose proof (getPageCount_nonneg_bound p rows Hp) as [Hnn Hub].
  rewrite <- (Z2Nat.id (getPageCount (mkPaginationState 0 p) rows)) by done.
  rewrite pages_concat_take by done.
  apply take_ge. nia.
Qed.

Lemma pages_partition_rows_witness :
  concat ((λ i, getPaginationRowModel (mkPaginationState i 2)
                  (getCoreRowModel threeRows))
            <$> seqZ 0 (getPageCount (mkPaginationState 0 2)
                          (getCoreRowModel threeRows)))
  = getCoreRowModel threeRows.
Proof.
  apply (pages_partition_rows 2 (getCoreRowModel threeRows)). lia.
Defined.

(** X5. The Next button is enabled only while a further page exists: from an
    index in range, an enabled [nextPage] stays below the page count. *)
Theorem nextPage_stays_in_range (pagination : PaginationState) (rows : list Row) :
  0 < pageSize pagination →
  0 ≤ pageIndex pagination →
  getCanNextPage pagination rows = true →
  0 ≤ pageIndex (nextPage pagination) < getPageCount pagination rows
  ∧ getPaginationRowModel (nextPage pagination) rows ≠ [].
Proof.
  intros Hp Hi Hnext.
  pose proof (ceilDiv_spec (Z.of_nat (length rows)) (pageSize pagination) Hp) as Hc.
  unfold getCanNextPage in Hnext. unfold getPageCount in *.
  set (pc := ceilDiv (Z.of_nat (length rows)) (pageSize pagination)) in *.
  destruct (Z.eqb_spec pc (-1)); [lia|].
  destruct (Z.eqb_spec pc 0); [done|].
  apply Z.ltb_lt in Hnext.
  assert (Hmax : 0 < MAX_SAFE_INTEGER) by done.
  assert (Hidx : 0 ≤ pageIndex (nextPage pagination) ≤ pageIndex pagination + 1).
  { unfold nextPage, setPageIndex. cbn [pageIndex]. lia. }
  split; [lia|].
  rewrite getPaginationRowModel_page; [|lia|done].
  change (pageSize (nextPage pagination)) with (pageSize pagination).
  intros Hnil. apply (f_equal length) in Hnil.
  rewrite length_take, length_drop in Hnil. cbn [length] in Hnil. nia.
Qed.

Lemma nextPage_stays_in_range_witness :
  0 ≤ pageIndex (nextPage (mkPaginationState 0 2))
    < getPageCount (mkPaginationState 0 2) (getCoreRowModel threeRows)
  ∧ getPaginationRowModel (nextPage (mkPaginationState 0 2))
      (getCoreRowModel threeRows) ≠ [].
Proof.
  apply (nextPage_stays_in_range (mkPaginationState 0 2) (getCoreRowModel threeRows));
    [simpl; lia | simpl; lia | reflexivity].
Defined.

(** X6. The shape of the export: the header row has one field per column of the
    props, each data row one field per visible column. *)
Theorem exportRows_shape
    (sortingFn : string → Row → Row → Z) (columns : list ColumnDef)
    (data : list RowData) (st : State) :
  length <$> head (exportRows sortingFn columns data st) = Some (length columns)
  ∧ Forall (λ row, length row = length (tableColumns columns (visibleColumns st)))
      (exportDataRows sortingFn columns data st).
Proof.
  split.
  - unfold exportRows. simpl. by rewrite length_map.
  - unfold exportDataRows, exportRows. simpl.
    apply Forall_forall. intros row Hrow.
    apply list_elem_of_fmap in Hrow as (r & -> & _).
    unfold getVisibleCellValues. by rewrite length_map.
Qed.

(** ** Row selection *)

Section SelectionProperties.

Import Selection.

Lemma inDataOrder_NoDup_index (rows : list Row) :
  inDataOrder rows → NoDup (index <$> rows).
Proof.
  unfold inDataOrder. induction 1 as [|r rows Hrows IH Hr]; simpl.
  - constructor.
  - constructor; [|done].
    intros Hin. apply list_elem_of_fmap in Hin as (r' & Heq & Hr').
    rewrite Forall_forall in Hr. specialize (Hr r' Hr'). lia.
Qed.

Lemma getPaginationRowModel_sublist_of (pagination : PaginationState) (rows : list Row) :
  getPaginationRowModel pagination rows `sublist_of` rows.
Proof.
  unfold getPaginationRowModel. destruct rows as [|r rows]; [done|].
  unfold slice. etransitivity; [apply sublist_take|apply sublist_drop].
Qed.

(** The rows of a page carry distinct indices, hence distinct ids. *)
Lemma rowModelRows_NoDup_index
    (sortingFn : string → Row → Row → Z) (columns : list ColumnDef)
    (data : list RowData) (st : State) :
  NoDup (index <$> rowModelRows sortingFn columns data st).
Proof.
  unfold rowModelRows, getRowModel.
  eapply sublist_NoDup;
    [|apply fmap_sublist, getPaginationRowModel_sublist_of].
  unfold getPrePaginationRowModel.
  set (filtered := getFilteredRowModel _ _ _).
  assert (Hf : NoDup (index <$> filtered)).
  { apply inDataOrder_NoDup_index, getFilteredRowModel_inDataOrder,
      getCoreRowModel_inDataOrder. }
  assert (Hp : getSortedRowModel sortingFn
                 (tableColumns columns (visibleColumns st))
                 (Table.sorting (tableState st)) filtered ≡ₚ filtered).
  { unfold getSortedRowModel. destruct filtered as [|r rows]; [done|].
    destruct (Table.sorting (tableState st)); [done|]. apply sort_Permutation. }
  by rewrite Hp.
Qed.

Lemma NoDup_rowId (rows : list Row) :
  NoDup (index <$> rows) → NoDup (rowId <$> rows).
Proof.
  intros H. unfold rowId.
  change (λ r : Row, pretty (index r)) with (pretty ∘ index).
  rewrite list_fmap_compose. by apply (NoDup_fmap_2 _).
Qed.

(** X7. Ticking the header check box selects the rows of the current page:
    afterwards every row check box of the page is ticked, the header box is
    ticked, and the count shown is the number of rows of the page. Clearing
    it leaves nothing selected. *)
Theorem handleSelectAll_selects_page
    (sortingFn : string → Row → Row → Z) (columns : list ColumnDef)
    (data : list RowData) (st : State) :
  Forall (λ r, rowChecked
                 (handleSelectAll true (rowModelRows sortingFn columns data st)) r
               = true)
    (rowModelRows sortingFn columns data st)
  ∧ selectAllChecked
      (handleSelectAll true (rowModelRows sortingFn columns data st))
      (rowModelRows sortingFn columns data st) = true
  ∧ size (handleSelectAll true (rowModelRows sortingFn columns data st))
    = length (rowModelRows sortingFn columns data st)
  ∧ Forall (λ r, rowChecked
                   (handleSelectAll false (rowModelRows sortingFn columns data st)) r
                 = false)
      (rowModelRows sortingFn columns data st).
Proof.
  set (rows := rowModelRows sortingFn columns data st).
  assert (Hsize : size (handleSelectAll true rows) = length rows).
  { unfold handleSelectAll. rewrite size_list_to_set, length_fmap; [done|].
    apply NoDup_rowId, rowModelRows_NoDup_index. }
  split; [|split; [|split; [exact Hsize|]]].
  - apply Forall_forall. intros r Hr. unfold rowChecked, handleSelectAll.
    apply bool_decide_eq_true_2. rewrite elem_of_list_to_set.
    by apply list_elem_of_fmap_2.
  - unfold selectAllChecked. by apply bool_decide_eq_true_2.
  - apply Forall_forall. intros r _. unfold rowChecked, handleSelectAll.
    apply bool_decide_eq_false_2. apply not_elem_of_empty.
Qed.

(** X8. Ticking or clearing the check box of one row sets the state of that
    row's box to the new value and leaves every row with another id as it
    was; ticking a row that was not selected raises the selected count by
    one, and clearing it again restores the selection. *)
Theorem handleRowSelect_one_row
    (selectedRows : gset string) (r : Row) (checked : bool) :
  rowChecked (handleRowSelect (rowId r) checked selectedRows) r = checked
  ∧ (∀ r', rowId r' ≠ rowId r →
       rowChecked (handleRowSelect (rowId r) checked selectedRows) r'
       = rowChecked selectedRows r')
  ∧ (rowChecked selectedRows r = false →
       size (handleRowSelect (rowId r) true selectedRows) = S (size selectedRows)
       ∧ handleRowSelect (rowId r) false
           (handleRowSelect (rowId r) true selectedRows) = selectedRows).
Proof.
  unfold rowChecked, handleRowSelect. split; [|split].
  - destruct checked.
    + apply bool_decide_eq_true_2.
      rewrite elem_of_union, elem_of_singleton. tauto.
    + apply bool_decide_eq_false_2.
      rewrite elem_of_difference, elem_of_singleton. tauto.
  - intros r' Hne. apply bool_decide_ext. destruct checked.
    + rewrite elem_of_union, elem_of_singleton. tauto.
    + rewrite elem_of_difference, elem_of_singleton. tauto.
  - intros Hr. apply bool_decide_eq_false in Hr. split.
    + rewrite size_union, size_singleton; [lia|].
      apply disjoint_singleton_r. exact Hr.
    + apply set_eq. intros x.
      rewrite elem_of_difference, elem_of_union, elem_of_singleton.
      destruct (decide (x = rowId r)); subst; tauto.
Qed.

Lemma handleRowSelect_one_row_witness :
  size (handleRowSelect (rowId (mkRow 3 al)) true ∅) = 1%nat
  ∧ handleRowSelect (rowId (mkRow 3 al)) false
      (handleRowSelect (rowId (mkRow 3 al)) true ∅) = ∅.
Proof.
  destruct (handleRowSelect_one_row ∅ (mkRow 3 al) true) as (_ & _ & H).
  destruct H as [Hs Hr]; [reflexivity|].
  split; [exact Hs|exact Hr].
Defined.

(** X9. The header check box compares sizes only: after the rows of one page
    were selected with it, any page of as many rows that shares no row with
    the first shows the header box ticked although none of its rows is
    selected. *)
Theorem selectAllChecked_compares_sizes (pageA pageB : list Row) :
  NoDup (index <$> (pageA ++ pageB)%list) →
  length pageA = length pageB →
  selectAllChecked (handleSelectAll true pageA) pageB = true
  ∧ Forall (λ r, rowChecked (handleSelectAll true pageA) r = false) pageB.
Proof.
  intros Hnd Hlen. rewrite fmap_app in Hnd.
  apply NoDup_app in Hnd as (HA & Hdisj & HB). split.
  - unfold selectAllChecked, handleSelectAll. apply bool_decide_eq_true_2.
    rewrite size_list_to_set, length_fmap; [done|]. by apply NoDup_rowId.
  - apply Forall_forall. intros r Hr. unfold rowChecked, handleSelectAll.
    apply bool_decide_eq_false_2. rewrite elem_of_list_to_set.
    intros Hin. apply list_elem_of_fmap in Hin as (r' & Heq & Hr').
    unfold rowId in Heq. apply (inj pretty) in Heq.
    apply (Hdisj (index r')); [by apply list_elem_of_fmap_2|].
    rewrite <- Heq. by apply list_elem_of_fmap_2.
Qed.

Lemma selectAllChecked_compares_sizes_witness :
  selectAllChecked (handleSelectAll true [mkRow 0 bob; mkRow 1 al])
    [mkRow 2 cy; mkRow 3 al] = true
  ∧ Forall (λ r, rowChecked (handleSelectAll true [mkRow 0 bob; mkRow 1 al]) r = false)
      [mkRow 2 cy; mkRow 3 al].
Proof.
  apply (selectAllChecked_compares_sizes
           [mkRow 0 bob; mkRow 1 al] [mkRow 2 cy; mkRow 3 al]);
    [|reflexivity].
  simpl. apply NoDup_ListNoDup.
  repeat (constructor; [simpl; intuition discriminate|]). constructor.
Defined.

End SelectionProperties.

(** ** A drag of a resize handle *)

Section DragProperties.

Variable minWidth : Z.

Lemma drag_moves (st : ResizeState) (l : Listener) (xs : list Z) :
  listeners st = [l] →
  listeners (foldl (step minWidth) st (MouseMove <$> xs)) = [l]
  ∧ columnWidths (foldl (step minWidth) st (MouseMove <$> xs)) =
      match last xs with
      | None => columnWidths st
      | Some x =>
          <[columnId l := Z.max minWidth (startWidth l + x - startX l)]>
            (columnWidths st)
      end.
Proof.
  intros Hl. induction xs as [|x xs IH] using rev_ind; [done|].
  rewrite fmap_app, foldl_app, last_snoc. simpl.
  destruct IH as [IHl IHw]. rewrite IHl. simpl. split; [done|].
  unfold handleMouseMove. rewrite IHw.
  destruct (last xs); [by rewrite insert_insert_eq|done].
Qed.

(** X10. The width follows the pointer. When no drag is in progress, pressing
    the handle of a column at [x0] and moving the mouse any number of times
    leaves that column with [max(floor, startWidth + x - x0)], where [x] is
    the position of the last move and [startWidth] the width when the handle
    was pressed; the moves do not add up and no other column changes. *)
Theorem drag_width_follows_pointer
    (st : ResizeState) (c : string) (x0 : Z) (xs : list Z) (x : Z) :
  listeners st = [] →
  columnWidths
    (foldl (step minWidth) st (MouseDown c x0 :: (MouseMove <$> (xs ++ [x])%list)))
  = <[c := Z.max minWidth (widthOrDefault (columnWidths st) c + x - x0)]>
      (columnWidths st).
Proof.
  intros Hl. simpl.
  destruct (drag_moves (handleColumnResize c x0 st)
              (mkListener c x0 (widthOrDefault (columnWidths st) c))
              (xs ++ [x])%list) as [_ Hw].
  { unfold handleColumnResize. simpl. by rewrite Hl. }
  rewrite Hw, last_snoc. done.
Qed.

(** X11. Releasing the mouse ends every drag: after a mouse-up, mouse moves
    change no width, however many follow. *)
Theorem mouse_up_ends_drag (st : ResizeState) (xs : list Z) :
  columnWidths
    (foldl (step minWidth) (step minWidth st MouseUp) (MouseMove <$> xs))
  = columnWidths st.
Proof.
  assert (H : ∀ st', listeners st' = [] →
    listeners (foldl (step minWidth) st' (MouseMove <$> xs)) = []
    ∧ columnWidths (foldl (step minWidth) st' (MouseMove <$> xs))
      = columnWidths st').
  { induction xs as [|x xs' IH]; intros st' Hl; [done|]. simpl.
    rewrite Hl. simpl. apply (IH (mkResizeState (columnWidths st') [])). done. }
  destruct (H (step minWidth st MouseUp)) as [_ Hw]; [done|].
  rewrite Hw. done.
Qed.

End DragProperties.

Lemma drag_width_follows_pointer_witness :
  columnWidths
    (foldl (step 50) initialResizeState
       (MouseDown "name" 300 :: (MouseMove <$> ([100; 500] ++ [350])%list)))
  = <["name" := 250]> ∅.
Proof.
  exact (drag_width_follows_pointer 50 initialResizeState "name" 300
           [100; 500] 350 eq_refl).
Defined.

(** ** Position of the View menu *)

Section DropdownProperties.

Import Dropdown.

(** X12. In the first variant of AdvancedTable.tsx, when the menu is opened
    with the button mounted, the menu is placed just below the button, never
    to the right of it, and its right edge ([left + 192]) never passes the
    window width; when the menu is closed or the button is not mounted the
    position is left as it was. *)
Theorem positionEffect_within_screen
    (buttonRect : DOMRect) (window : Window) (prev : Position) :
  left (positionEffect (Some buttonRect) true window prev) + 192
    ≤ innerWidth window
  ∧ left (positionEffect (Some buttonRect) true window prev)
    ≤ rect_left buttonRect + scrollX window
  ∧ top (positionEffect (Some buttonRect) true window prev)
    = rect_bottom buttonRect + scrollY window
  ∧ positionEffect (Some buttonRect) false window prev = prev
  ∧ positionEffect None true window prev = prev.
Proof.
  unfold positionEffect. simpl.
  destruct (Z.ltb_spec (innerWidth window)
              (rect_left buttonRect + scrollX window + 192)); simpl;
    repeat split; lia.
Qed.

(** X13. In the dark-mode variant the menu never starts left of the window
    ([left ≥ 0]), whatever the button and window; and in a window at least
    200 wide its right edge ([left + 200]) stays within the window. *)
Theorem positionEffectDark_within_screen
    (rect : DOMRect) (window : Window) (prev : Position) :
  0 ≤ left (positionEffectDark (Some rect) true window prev)
  ∧ (200 ≤ innerWidth window →
     left (positionEffectDark (Some rect) true window prev) + 200
       ≤ innerWidth window).
Proof.
  unfold positionEffectDark. simpl.
  destruct (Z.ltb_spec (innerWidth window)
              (rect_left rect + scrollX window + 200)) as [H1|H1].
  - destruct (Z.ltb_spec (innerWidth window - 200 - 20) 10); simpl; lia.
  - destruct (Z.ltb_spec (rect_left rect + scrollX window) 10); simpl; lia.
Qed.

Lemma positionEffectDark_within_screen_witness :
  left (positionEffectDark (Some (mkDOMRect 900 40)) true
          (mkWindow 1000 0 0) (mkPosition 0 0)) + 200 ≤ 1000.
Proof.
  destruct (positionEffectDark_within_screen (mkDOMRect 900 40)
              (mkWindow 1000 0 0) (mkPosition 0 0)) as [_ H].
  apply H. simpl. lia.
Defined.

End DropdownProperties.

(** ** The dark-mode preference *)

Section ThemeProperties.

Import Theme.

(** The invariant the [darkMode] effects establish. *)
Lemma darkModeEffects_sync (darkMode : bool) (b : Browser) :
  localStorage (darkModeEffects darkMode b) !! "theme"
    = Some (if darkMode then "dark" else "light")
  ∧ ("dark" ∈ classList (darkModeEffects darkMode b) ↔ darkMode = true)
  ∧ storedThemeIsDark (darkModeEffects darkMode b) = darkMode.
Proof.
  unfold darkModeEffects, toggleEffect, addOrRemoveEffect, setItemTheme,
    storedThemeIsDark. simpl. rewrite lookup_insert_eq.
  destruct darkMode; simpl.
  - split; [done|]. split; [|done].
    rewrite !elem_of_union, elem_of_singleton. tauto.
  - split; [done|]. split; [|done].
    rewrite !elem_of_difference, elem_of_singleton. split; [tauto|done].
Qed.

Lemma mount_eq (b : Browser) :
  mount b = (storedThemeIsDark b, darkModeEffects (storedThemeIsDark b) b).
Proof.
  unfold mount.
  assert (H : storedThemeIsDark (addOrRemoveEffect (storedThemeIsDark b) b)
              = storedThemeIsDark b).
  { unfold addOrRemoveEffect, setItemTheme, storedThemeIsDark at 1. simpl.
    rewrite lookup_insert_eq. by destruct (storedThemeIsDark b). }
  rewrite H. by destruct (storedThemeIsDark b).
Qed.

(** X14. The mode survives a reload. Starting from any browser state, after
    mounting and any number of clicks on the mode button, the stored theme is
    "dark" or "light" according to the mode, the page carries the class
    "dark" exactly in dark mode, and mounting the component again on that
    browser gives back the same mode. A browser with no stored theme, or with
    any stored value other than "dark", starts in light mode. *)
Theorem theme_survives_reload (b : Browser) (clicks : nat) :
  localStorage (snd (Nat.iter clicks clickModeButton (mount b))) !! "theme"
    = Some (if fst (Nat.iter clicks clickModeButton (mount b))
            then "dark" else "light")
  ∧ ("dark" ∈ classList (snd (Nat.iter clicks clickModeButton (mount b)))
     ↔ fst (Nat.iter clicks clickModeButton (mount b)) = true)
  ∧ fst (mount (snd (Nat.iter clicks clickModeButton (mount b))))
    = fst (Nat.iter clicks clickModeButton (mount b))
  ∧ (localStorage b !! "theme" ≠ Some "dark" → fst (mount b) = false).
Proof.
  assert (Hinv : ∃ b0, Nat.iter clicks clickModeButton (mount b)
    = (fst (Nat.iter clicks clickModeButton (mount b)),
       darkModeEffects (fst (Nat.iter clicks clickModeButton (mount b))) b0)).
  { destruct clicks as [|n]; simpl.
    - exists b. by rewrite mount_eq.
    - exists (snd (Nat.iter n clickModeButton (mount b))). done. }
  destruct Hinv as [b0 Hb0].
  set (st := Nat.iter clicks clickModeButton (mount b)) in *.
  destruct (darkModeEffects_sync (fst st) b0) as (Hs & Hc & Hd).
  rewrite Hb0. simpl. split; [exact Hs|]. split; [exact Hc|]. split.
  - rewrite mount_eq. simpl. exact Hd.
  - intros Hne. rewrite mount_eq. simpl. unfold storedThemeIsDark.
    by apply bool_decide_eq_false_2.
Qed.

Lemma theme_survives_reload_witness :
  fst (mount (mkBrowser ∅ ∅)) = false.
Proof.
  destruct (theme_survives_reload (mkBrowser ∅ ∅) 0) as (_ & _ & _ & H).
  apply H. simpl. rewrite lookup_empty. discriminate.
Defined.

End ThemeProperties.

(** ** The CSV text *)

Section CsvProperties.

Lemma occurrences_app (c : ascii) (s1 s2 : string) :
  occurrences c (s1 ++ s2) = (occurrences c s1 + occurrences c s2)%nat.
Proof. induction s1 as [|c' s1 IH]; simpl; [done|]. rewrite IH. lia. Qed.

Lemma occurrences_join (c : ascii) (sep : string) (l : list string) :
  occurrences c (join sep l)
  = (sum_list (occurrences c <$> l) + (length l - 1) * occurrences c sep)%nat.
Proof.
  induction l as [|x l IH]; [done|].
  destruct l as [|y l].
  - simpl. lia.
  - change (join sep (x :: y :: l)) with (x ++ sep ++ join sep (y :: l)).
    rewrite !occurrences_app, IH. simpl. lia.
Qed.

Lemma sum_list_fmap_zero {A} (f : A → nat) (l : list A) :
  Forall (λ x, f x = 0%nat) l → sum_list (f <$> l) = 0%nat.
Proof.
  induction 1 as [|x l Hx _ IH]; [done|].
  cbn [fmap list_fmap sum_list sum_list_with]. rewrite IH, Hx. done.
Qed.

Variable sortingFn : string → Row → Row → Z.
Variable columns : list ColumnDef.
Variable data : list RowData.

(** The characters of the CSV text, counted: every field contributes its own
    text between two quotes, every row one comma between fields, and the
    rows are separated by line breaks. *)
Lemma csvContent_occurrences (c : ascii) (st : State) :
  occurrences c (csvContent sortingFn columns data st)
  = (sum_list
       ((λ row,
           sum_list ((λ v, 2 * occurrences c quote + occurrences c (toString v))
                       <$> row)
           + (length row - 1) * occurrences c ",")
          <$> exportRows sortingFn columns data st)
     + (length (exportRows sortingFn columns data st) - 1)
       * occurrences c newline)%nat.
Proof.
  unfold csvContent. rewrite occurrences_join, length_map.
  f_equal. f_equal.
  induction (exportRows sortingFn columns data st) as [|row rows IH]; [done|].
  cbn [map fmap list_fmap]. rewrite <- IH. f_equal.
  rewrite occurrences_join, length_map. f_equal. f_equal.
  clear IH. induction row as [|v row IHrow]; [done|].
  cbn [map fmap list_fmap]. rewrite <- IHrow. f_equal.
  rewrite !occurrences_app. lia.
Qed.

(** X15. When no header label and no exported cell contains a line break,
    the CSV text has exactly one line break per exported data row: one line
    for the header and one for each row. *)
Theorem csvContent_one_line_per_row (st : State) :
  Forall (Forall (λ v, occurrences (ascii_of_nat 10) (toString v) = 0%nat))
    (exportRows sortingFn columns data st) →
  occurrences (ascii_of_nat 10) (csvContent sortingFn columns data st)
  = length (exportDataRows sortingFn columns data st).
Proof.
  intros Hclean. rewrite csvContent_occurrences.
  rewrite sum_list_fmap_zero.
  - unfold exportDataRows, exportRows. simpl. lia.
  - eapply Forall_impl; [exact Hclean|]. intros row Hrow. cbv beta.
    rewrite sum_list_fmap_zero.
    + change (occurrences (ascii_of_nat 10) ",") with 0%nat. lia.
    + eapply Forall_impl; [exact Hrow|]. intros v Hv. cbv beta.
      rewrite Hv. reflexivity.
Qed.

(** X16. Cell texts are written as they are, between two quotes: the number
    of quote characters in the CSV text is twice the number of fields plus
    the number of quote characters inside the fields, so a quote inside a
    cell is neither doubled nor removed. *)
Theorem csvContent_quotes_not_escaped (st : State) :
  occurrences (ascii_of_nat 34) (csvContent sortingFn columns data st)
  = sum_list
      ((λ row,
          sum_list ((λ v, 2 + occurrences (ascii_of_nat 34) (toString v)) <$> row))%nat
         <$> exportRows sortingFn columns data st).
Proof.
  rewrite csvContent_occurrences.
  change (occurrences (ascii_of_nat 34) newline) with 0%nat.
  rewrite Nat.mul_0_r, Nat.add_0_r. f_equal.
  apply list_fmap_ext. intros _ row _.
  change (occurrences (ascii_of_nat 34) ",") with 0%nat.
  rewrite Nat.mul_0_r, Nat.add_0_r. done.
Qed.

End CsvProperties.

Lemma csvContent_one_line_per_row_witness :
  occurrences (ascii_of_nat 10) (csvContent basic App.columns threeRows mounted)
  = 3%nat.
Proof.
  rewrite (csvContent_one_line_per_row basic App.columns threeRows mounted);
    [reflexivity|].
  vm_compute. repeat constructor.
Defined.

(** ** Loading the users *)

Section LoaderProperties.

(** X17. The load is all or nothing. When every fetched user has an
    [address] the loader returns one record per user, in order, whose name is
    the first and last name joined by a space and whose age is the user's;
    when some user has none it throws and returns no record at all. *)
Theorem formattedData_all_or_nothing (users : list App.User) :
  match App.formattedData users with
  | App.Return rows =>
      Forall (λ u, is_Some (App.address u)) users
      ∧ Forall2
          (λ u row,
             name row = VString (toString (App.firstName u) ++ " "
                                 ++ toString (App.lastName u))
             ∧ age row = App.age u)
          users rows
  | App.Throw e => Exists (λ u, App.address u = None) users
  end.
Proof.
  induction users as [|u users IH]; simpl.
  - split; constructor.
  - unfold App.formatUser. destruct (App.address u) as [a|] eqn:Ha.
    + destruct (App.formattedData users) as [rows|e].
      * destruct IH as [Hall Hrows]. split.
        -- constructor; [by rewrite Ha|done].
        -- constructor; [done|done].
      * by apply Exists_cons_tl.
    + by apply Exists_cons_hd.
Qed.

Lemma formattedData_names (users : list App.User) :
  match App.formattedData users with
  | App.Return rows =>
      Forall (λ row, ∃ s1 s2, name row = VString (s1 ++ " " ++ s2)) rows
  | App.Throw _ => True
  end.
Proof.
  induction users as [|u users IH]; simpl; [constructor|].
  unfold App.formatUser. destruct (App.address u) as [a|]; [|done].
  destruct (App.formattedData users) as [rows|e]; [|done].
  constructor; [|done]. simpl. eauto.
Qed.

Lemma toLowerCase_app (s1 s2 : string) :
  toLowerCase (s1 ++ s2) = toLowerCase s1 ++ toLowerCase s2.
Proof. induction s1 as [|c s1 IH]; simpl; [done|]. by rewrite IH. Qed.

Lemma includes_app_r (s1 s2 search : string) :
  includes s2 search = true → includes (s1 ++ s2) search = true.
Proof.
  intros H. induction s1 as [|c s1 IH]; simpl; [done|].
  rewrite IH. apply orb_true_r.
Qed.

Lemma includes_space (s1 s2 : string) :
  includes (toLowerCase (s1 ++ " " ++ s2)) (toLowerCase " ") = true.
Proof.
  rewrite toLowerCase_app. apply includes_app_r.
  rewrite toLowerCase_app. change (toLowerCase " ") with " ".
  destruct (toLowerCase s2); reflexivity.
Qed.

Lemma List_filter_true {A} (f : A → bool) (l : list A) :
  (∀ x, x ∈ l → f x = true) → List.filter f l = l.
Proof.
  induction l as [|x l IH]; intros H; simpl; [done|].
  rewrite (H x (list_elem_of_here x l)). f_equal.
  apply IH. intros y Hy. by apply H, list_elem_of_further.
Qed.

Lemma getCoreRowModel_original (data : list RowData) (r : Row) :
  r ∈ getCoreRowModel data → original r ∈ data.
Proof.
  unfold getCoreRowModel. intros Hr.
  apply list_elem_of_lookup in Hr as [i Hi].
  rewrite list_lookup_imap in Hi.
  destruct (data !! i) as [d|] eqn:Hd; [|done].
  simpl in Hi. injection Hi as <-. simpl.
  by eapply list_elem_of_lookup_2.
Qed.

(** One computation of the filtered rows: every record the loader produces
    has a space in its name, so a computation made with the name column
    among the table's columns keeps all of them under the text " ". *)
Lemma getFilteredRowModel_space_keeps_loaded
    (users : list App.User) (rows : list RowData)
    (columns : list ColumnDef) (label : string) :
  App.formattedData users = App.Return rows →
  mkColumnDef "name" label ∈ columns →
  getFilteredRowModel columns " " (getCoreRowModel rows) = getCoreRowModel rows.
Proof.
  intros Hload Hcol.
  assert (Hname : ∀ r, r ∈ getCoreRowModel rows →
            includesString r "name" " " = true).
  { intros r Hr. apply getCoreRowModel_original in Hr.
    pose proof (formattedData_names users) as Hn. rewrite Hload in Hn.
    rewrite Forall_forall in Hn. destruct (Hn _ Hr) as (s1 & s2 & Heq).
    unfold includesString, getValue.
    change (getProperty (original r) "name") with (name (original r)).
    rewrite Heq.
    apply includes_space. }
  unfold getFilteredRowModel.
  destruct (getCoreRowModel rows) as [|r0 core] eqn:Hcore; [done|].
  simpl orb. cbv iota.
  assert (Hfilterable : mkColumnDef "name" label
            ∈ List.filter (getCanGlobalFilter (r0 :: core)) columns).
  { rewrite list_elem_of_In, filter_In, <- list_elem_of_In. split; [done|].
    simpl. specialize (Hname r0 (list_elem_of_here r0 core)).
    unfold includesString in Hname.
    destruct (getValue r0 "name"); [discriminate|done|done]. }
  destruct (List.filter (getCanGlobalFilter (r0 :: core)) columns)
    as [|c0 cols] eqn:Hcols; [by apply elem_of_nil in Hfilterable|].
  apply List_filter_true. intros r Hr.
  apply existsb_exists. exists (mkColumnDef "name" label). split.
  - by apply list_elem_of_In.
  - simpl. by apply Hname.
Qed.

End LoaderProperties.

(** ** Page navigation *)

Section NavigationProperties.

Import Buttons.

Lemma last_drop_lt {A} (l : list A) (k : nat) :
  (k < length l)%nat → last (drop k l) = last l.
Proof.
  intros Hk. rewrite !last_lookup, lookup_drop, length_drop. f_equal. lia.
Qed.

(** X19. The Last button shows the end of the table. For a page size above
    0 and a row count within the safe integers, after [lastPage] the last
    row of the page is the last row of the table (so the page is empty only
    when the table is), the Next button is disabled, and the index is not
    negative: on an empty table, where the page count is 0, it is 0. *)
Theorem lastPage_shows_last_row (rows : list Row) (old : PaginationState) :
  0 < pageSize old →
  Z.of_nat (length rows) ≤ MAX_SAFE_INTEGER →
  last (getPaginationRowModel (lastPage rows old) rows) = last rows
  ∧ getCanNextPage (lastPage rows old) rows = false
  ∧ 0 ≤ pageIndex (lastPage rows old)
  ∧ (rows = [] → pageIndex (lastPage rows old) = 0).
Proof.
  intros Hp Hmax.
  pose proof (ceilDiv_spec (Z.of_nat (length rows)) (pageSize old) Hp) as Hc.
  unfold lastPage, getCanNextPage, getPageCount.
  change (pageSize (setPageIndex _ old)) with (pageSize old).
  set (pc := ceilDiv (Z.of_nat (length rows)) (pageSize old)) in *.
  assert (Hidx : pageIndex (setPageIndex (pc - 1) old) = Z.max 0 (pc - 1)).
  { unfold setPageIndex. cbn [pageIndex]. nia. }
  destruct rows as [|r rows'] eqn:Hrows.
  - assert (pc = 0) as Hpc by (cbn [length] in Hc; nia).
    rewrite Hidx, Hpc. done.
  - rewrite <- Hrows in *.
    assert (0 < Z.of_nat (length rows)) by (rewrite Hrows; cbn [length]; lia).
    assert (1 ≤ pc) by nia.
    rewrite getPaginationRowModel_page; [|lia|done].
    change (pageSize (setPageIndex (pc - 1) old)) with (pageSize old).
    rewrite Hidx, Z.max_r by lia. split; [|split; [|split]].
    + rewrite take_ge by (rewrite length_drop; nia).
      apply last_drop_lt. nia.
    + destruct (Z.eqb_spec pc (-1)); [lia|].
      destruct (Z.eqb_spec pc 0); [lia|]. apply Z.ltb_ge. lia.
    + lia.
    + rewrite Hrows. done.
Qed.

Lemma lastPage_shows_last_row_witness :
  last (getPaginationRowModel
          (lastPage (getCoreRowModel threeRows) (mkPaginationState 0 2))
          (getCoreRowModel threeRows))
  = last (getCoreRowModel threeRows).
Proof.
  destruct (lastPage_shows_last_row (getCoreRowModel threeRows)
              (mkPaginationState 0 2)) as [H _];
    [simpl; lia | vm_compute; congruence | exact H].
Defined.

(** X20. Previous undoes Next: from an index within [0, MAX_SAFE_INTEGER)
    going to the next page and back gives the pagination state one started
    from; Previous on the first page changes nothing; and no sequence of
    Next, Previous and First takes the index below 0. *)
Theorem previousPage_undoes_nextPage (old : PaginationState) :
  0 ≤ pageIndex old < MAX_SAFE_INTEGER →
  previousPage (nextPage old) = old
  ∧ (pageIndex old = 0 → previousPage old = old)
  ∧ 0 ≤ pageIndex (previousPage old)
  ∧ 0 ≤ pageIndex (nextPage old)
  ∧ pageIndex (firstPage old) = 0.
Proof.
  intros Hi. destruct old as [i p]. cbn [pageIndex] in Hi.
  unfold previousPage, nextPage, firstPage, setPageIndex. cbn [pageIndex pageSize].
  assert (HM : MAX_SAFE_INTEGER = 9007199254740991) by reflexivity.
  split; [f_equal; lia|]. split; [intros ->; f_equal|]. repeat split; lia.
Qed.

Lemma previousPage_undoes_nextPage_witness :
  previousPage (nextPage (mkPaginationState 3 10)) = mkPaginationState 3 10.
Proof.
  destruct (previousPage_undoes_nextPage (mkPaginationState 3 10)) as [H _];
    [vm_compute; split; congruence | exact H].
Defined.

(** X21. The Next button is enabled exactly when rows remain after the
    current page, and the Previous button exactly when the index is above 0:
    for a page size [p > 0] and an index [i ≥ 0], [getCanNextPage] holds iff
    [p * (i + 1)] is below the number of rows. *)
Theorem getCanNextPage_iff_rows_remain
    (pagination : PaginationState) (rows : list Row) :
  0 < pageSize pagination →
  0 ≤ pageIndex pagination →
  (getCanNextPage pagination rows = true
   ↔ pageSize pagination * (pageIndex pagination + 1) < Z.of_nat (length rows))
  ∧ (getCanPreviousPage pagination = true ↔ 0 < pageIndex pagination).
Proof.
  intros Hp Hi.
  pose proof (ceilDiv_spec (Z.of_nat (length rows)) (pageSize pagination) Hp) as Hc.
  unfold getCanNextPage, getCanPreviousPage, getPageCount.
  set (pc := ceilDiv (Z.of_nat (length rows)) (pageSize pagination)) in *.
  split; [|apply Z.ltb_lt].
  destruct (Z.eqb_spec pc (-1)); [nia|].
  destruct (Z.eqb_spec pc 0) as [Hz|Hz].
  - split; [done|]. intros H. exfalso. nia.
  - rewrite Z.ltb_lt. split; intros H; nia.
Qed.

Lemma getCanNextPage_iff_rows_remain_witness :
  getCanNextPage (mkPaginationState 0 2) (getCoreRowModel threeRows) = true
  ↔ 2 * (0 + 1) < Z.of_nat (length (getCoreRowModel threeRows)).
Proof.
  destruct (getCanNextPage_iff_rows_remain (mkPaginationState 0 2)
              (getCoreRowModel threeRows)) as [H _];
    [simpl; lia | simpl; lia | exact H].
Defined.

End NavigationProperties.

(** ** Searching *)

Section SearchProperties.

(** One computation of the filtered rows with a non-empty text: a row that
    is kept matches in one of the columns given to the computation, unless
    none of them is searchable (in which case nothing is filtered). *)
Lemma getFilteredRowModel_kept_row_matches
    (columns : list ColumnDef) (visible : gset string) (data : list RowData)
    (text : string) (r : Row) :
  text ≠ "" →
  r ∈ getFilteredRowModel (tableColumns columns visible) text (getCoreRowModel data) →
  List.filter (getCanGlobalFilter (getCoreRowModel data))
    (tableColumns columns visible) = []
  ∨ ∃ c, c ∈ columns ∧ header c ∈ visible
         ∧ includesString r (accessorKey c) text = true.
Proof.
  intros Htext Hr. unfold getFilteredRowModel in Hr.
  destruct (getCoreRowModel data) as [|r0 core] eqn:Hcore.
  { by apply elem_of_nil in Hr. }
  assert (String.eqb text "" = false) as Hne by by apply String.eqb_neq.
  rewrite Hne in Hr. simpl orb in Hr. cbv iota in Hr.
  destruct (List.filter (getCanGlobalFilter (r0 :: core))
              (tableColumns columns visible)) as [|c0 cols] eqn:Hcols;
    [by left|right].
  rewrite list_elem_of_In, filter_In in Hr. destruct Hr as [_ Hmatch].
  apply existsb_exists in Hmatch as (c & Hc & Hinc).
  exists c. rewrite <- Hcols in Hc. apply filter_In in Hc as [Hc _].
  apply list_elem_of_In, tableColumns_elem_of in Hc. tauto.
Qed.

End SearchProperties.

(** ** Row models kept between renders *)

Section InstanceProperties.

Import Instance.

Variable sortingFn : string → Row → Row → Z.
Variable columns : list ColumnDef.

Lemma toggles_keep_row_models (t : TableInstance) (headers : list string) :
  filteredRowModel
    (foldl (dispatch sortingFn columns) t (ToggleColumnVisibility <$> headers))
  = filteredRowModel t
  ∧ sortedRowModel
      (foldl (dispatch sortingFn columns) t (ToggleColumnVisibility <$> headers))
    = sortedRowModel t.
Proof.
  revert t. induction headers as [|h hs IH]; intros t; [done|].
  rewrite fmap_cons. cbn [foldl].
  destruct (IH (dispatch sortingFn columns t (ToggleColumnVisibility h)))
    as [Hf Hs].
  rewrite Hf, Hs. done.
Qed.

(** X22. The search looks at the columns that are visible when the search
    text changes, and not again afterwards. After a new, non-empty text is
    typed, showing or hiding any columns changes neither the filtered nor the
    sorted rows the table holds; and a row that is kept matches the text in a
    column that was visible when the text was typed, unless the table had no
    searchable column then. *)
Theorem search_uses_columns_visible_when_typed
    (t : TableInstance) (text : string) (headers : list string) (r : Row) :
  text ≠ globalFilter t →
  text ≠ "" →
  filteredRowModel
    (foldl (dispatch sortingFn columns)
       (dispatch sortingFn columns t (SetGlobalFilter text))
       (ToggleColumnVisibility <$> headers))
  = getFilteredRowModel (tableColumns columns (visibleColumns t)) text
      (getCoreRowModel (data t))
  ∧ sortedRowModel
      (foldl (dispatch sortingFn columns)
         (dispatch sortingFn columns t (SetGlobalFilter text))
         (ToggleColumnVisibility <$> headers))
    = sortedRowModel (dispatch sortingFn columns t (SetGlobalFilter text))
  ∧ (r ∈ filteredRowModel
           (foldl (dispatch sortingFn columns)
              (dispatch sortingFn columns t (SetGlobalFilter text))
              (ToggleColumnVisibility <$> headers)) →
     List.filter (getCanGlobalFilter (getCoreRowModel (data t)))
       (tableColumns columns (visibleColumns t)) = []
     ∨ ∃ c, c ∈ columns ∧ header c ∈ visibleColumns t
            ∧ includesString r (accessorKey c) text = true).
Proof.
  intros Hnew Htext.
  destruct (toggles_keep_row_models
              (dispatch sortingFn columns t (SetGlobalFilter text)) headers)
    as [Hf Hs].
  assert (Hfiltered :
    filteredRowModel (dispatch sortingFn columns t (SetGlobalFilter text))
    = getFilteredRowModel (tableColumns columns (visibleColumns t)) text
        (getCoreRowModel (data t))).
  { unfold dispatch. apply String.eqb_neq in Hnew. by rewrite Hnew. }
  rewrite Hf, Hs, Hfiltered. split; [done|]. split; [done|].
  by apply getFilteredRowModel_kept_row_matches.
Qed.

(** X24. With an empty search text and no sort, the table holds every record
    of its data, in the order of the data, whatever was loaded, typed, sorted,
    shown or hidden before. *)
Theorem no_search_no_sort_holds_all_records
    (data0 : list RowData) (actions : list Action) :
  globalFilter (run sortingFn columns data0 actions) = "" →
  sorting (run sortingFn columns data0 actions) = [] →
  sortedRowModel (run sortingFn columns data0 actions)
  = getCoreRowModel (data (run sortingFn columns data0 actions)).
Proof.
  assert (Hempty : ∀ cols l, getFilteredRowModel cols "" l = l).
  { intros cols l. unfold getFilteredRowModel. simpl. by rewrite orb_true_r. }
  assert (Hunsorted : ∀ cols l, getSortedRowModel sortingFn cols [] l = l).
  { intros cols l. unfold getSortedRowModel. by destruct l. }
  assert (Hinv : ∀ t,
    (globalFilter t = "" → filteredRowModel t = getCoreRowModel (data t))
    ∧ (sorting t = [] → sortedRowModel t = filteredRowModel t) →
    ∀ acts,
      (globalFilter (foldl (dispatch sortingFn columns) t acts) = "" →
       filteredRowModel (foldl (dispatch sortingFn columns) t acts)
       = getCoreRowModel (data (foldl (dispatch sortingFn columns) t acts)))
      ∧ (sorting (foldl (dispatch sortingFn columns) t acts) = [] →
         sortedRowModel (foldl (dispatch sortingFn columns) t acts)
         = filteredRowModel (foldl (dispatch sortingFn columns) t acts))).
  { intros t Ht acts. revert t Ht.
    induction acts as [|a acts IH]; intros t [Hf Hs]; [done|].
    simpl. apply IH. destruct a as [d|text|h|srt]; simpl.
    - split; [intros ->; apply Hempty|intros ->; apply Hunsorted].
    - destruct (String.eqb text (globalFilter t)); [done|]. simpl.
      split; [intros ->; apply Hempty|intros ->; apply Hunsorted].
    - done.
    - split; [done|intros ->; apply Hunsorted]. }
  intros Hg Hsrt.
  destruct (Hinv (mount sortingFn columns data0)) with (acts := actions)
    as [Hf Hs].
  { unfold mount. simpl. split; intros _; [apply Hempty|apply Hunsorted]. }
  unfold run in *. rewrite (Hs Hsrt). by apply Hf.
Qed.

(** X18. Every record the loader produces has a space in its name. So when
    the loaded records are the table's data and the name column is visible
    at the moment a single space is typed in the search box, the table keeps
    all of them, and keeps them whatever columns are hidden afterwards. (With
    the name column hidden at that moment a record is kept only if another
    cell holds a space.) *)
Theorem loaded_rows_pass_space_search
    (users : list App.User) (t : TableInstance) (label : string)
    (headers : list string) :
  App.formattedData users = App.Return (data t) →
  mkColumnDef "name" label ∈ columns →
  label ∈ visibleColumns t →
  globalFilter t ≠ " " →
  filteredRowModel
    (foldl (dispatch sortingFn columns)
       (dispatch sortingFn columns t (SetGlobalFilter " "))
       (ToggleColumnVisibility <$> headers))
  = getCoreRowModel (data t).
Proof.
  intros Hload Hcol Hvisible Hnew.
  destruct (toggles_keep_row_models
              (dispatch sortingFn columns t (SetGlobalFilter " ")) headers)
    as [Hf _].
  rewrite Hf. unfold dispatch.
  assert (String.eqb " " (globalFilter t) = false) as ->.
  { apply String.eqb_neq. congruence. }
  simpl. apply (getFilteredRowModel_space_keeps_loaded users _ _ label Hload).
  apply tableColumns_elem_of. done.
Qed.

End InstanceProperties.

Import Instance.

Lemma search_uses_columns_visible_when_typed_witness :
  original <$> filteredRowModel
    (foldl (dispatch basic App.columns)
       (dispatch basic App.columns (mount basic App.columns threeRows)
          (SetGlobalFilter "25"))
       (ToggleColumnVisibility <$> ["Age"]))
  = [al; cy].
Proof.
  destruct (search_uses_columns_visible_when_typed basic App.columns
              (mount basic App.columns threeRows) "25" ["Age"] (mkRow 1 al))
    as [H _]; [discriminate|discriminate|].
  rewrite H. reflexivity.
Defined.

Lemma no_search_no_sort_holds_all_records_witness :
  sortedRowModel
    (run basic App.columns threeRows
       [SetGlobalFilter "25"; ToggleColumnVisibility "Age";
        SetSorting [mkColumnSort "name" false]; SetGlobalFilter "";
        SetSorting []])
  = getCoreRowModel threeRows.
Proof.
  apply (no_search_no_sort_holds_all_records basic App.columns threeRows
           [SetGlobalFilter "25"; ToggleColumnVisibility "Age";
            SetSorting [mkColumnSort "name" false]; SetGlobalFilter "";
            SetSorting []]); reflexivity.
Defined.

Lemma loaded_rows_pass_space_search_witness :
  filteredRowModel
    (foldl (dispatch basic App.columns)
       (dispatch basic App.columns
          (mount basic App.columns
             [mkRowData (VString "Al Smith") VUndefined (VString "IN")
                (VString "Pune")])
          (SetGlobalFilter " "))
       (ToggleColumnVisibility <$> ["Name"]))
  = getCoreRowModel
      [mkRowData (VString "Al Smith") VUndefined (VString "IN") (VString "Pune")].
Proof.
  apply (loaded_rows_pass_space_search basic App.columns [userWithoutAge]
           (mount basic App.columns
              [mkRowData (VString "Al Smith") VUndefined (VString "IN")
                 (VString "Pune")])
           "Name" ["Name"]).
  - reflexivity.
  - apply list_elem_of_here.
  - vm_compute. reflexivity.
  - discriminate.
Defined.

(** The sequence of the three records: "25" is typed, then Age is hidden; Al
    and Cy, who match in Age only, stay. Sorted by age and then Age hidden,
    the rows stay sorted by age. *)
Example hidden_column_keeps_filtered_rows :
  original <$> sortedRowModel
    (run basic App.columns threeRows
       [SetGlobalFilter "25"; ToggleColumnVisibility "Age"])
  = [al; cy]
  ∧ original <$> sortedRowModel
      (run basic App.columns threeRows
         [SetSorting [mkColumnSort "age" false]; ToggleColumnVisibility "Age"])
    = [al; cy; bob].
Proof. vm_compute. done. Qed.
